(** * nodelocaldns-admission-controller: the admission decision engine

    A shallow embedding of the mutating webhook's decision path
    ([processAdmissionRequest], [injectDNSConfig], [generateJSONPatch],
    [createErrorResponse]) and of its HTTP front ([HandleInject],
    [parseAdmissionReview], [writeErrorResponse]).

    The repository carries two revisions of the decision engine; both are
    embedded, as [Part000] (operation switch, reset on Update, search domains
    derived from the pod's namespace) and [Part001] (operation guard before
    parsing, static search domains).  [injectDNSConfig], [generateJSONPatch]
    and [createErrorResponse] have the same text in both and are embedded
    once. *)

From Stdlib Require Import String Ascii List Bool ZArith Lia DecimalString.
Import ListNotations.
Open Scope string_scope.
Open Scope list_scope.

Set Implicit Arguments.

(** ** Go values *)

(** A Go [error] is [nil] or carries a message; [%v] prints the message. *)
Definition error : Type := option string.

(** The pair [(value, error)] returned by a fallible Go function. *)
Inductive result (A : Type) : Type :=
| Ok (a : A)
| Err (msg : string).
Arguments Ok {A} a.
Arguments Err {A} msg.

(** [[]byte]: a byte slice, which may be [nil]. *)
Definition bytes : Type := option string.

(** [encoding/json] reads a nil slice as it reads an empty one. *)
Definition slice_contents (b : bytes) : string :=
  match b with
  | Some s => s
  | None => ""
  end.

(** [make([]T, n)]: [n] zero values. *)
Definition make (A : Type) (zero : A) (n : nat) : list A := repeat zero n.

(** [copy(dst, src)]: the first [min (len dst) (len src)] elements of [dst]
    are overwritten by those of [src]; the result is the new [dst]. *)
Definition copy (A : Type) (dst src : list A) : list A :=
  firstn (length dst) src ++ skipn (length src) dst.

(** [s[i] = v] for an index inside the slice (outside, Go panics; the loop
    below never leaves the slice). *)
Fixpoint assign (A : Type) (s : list A) (i : nat) (v : A) : list A :=
  match s, i with
  | [], _ => []
  | _ :: tl, O => v :: tl
  | hd :: tl, S j => hd :: assign tl j v
  end.

(** [for i, x := range xs { acc = body i x acc }], counting from [i]. *)
Fixpoint range_from (A S : Type) (body : nat -> A -> S -> S)
         (i : nat) (xs : list A) (acc : S) : S :=
  match xs with
  | [] => acc
  | x :: tl => range_from body (Datatypes.S i) tl (body i x acc)
  end.

Definition range (A S : Type) (body : nat -> A -> S -> S)
           (xs : list A) (acc : S) : S :=
  range_from body 0 xs acc.

(** ** config.go *)

Record DNSOption : Type := {
  Name : string;
  Value : string
}.

Record DNSConfig : Type := {
  Nameservers : list string;
  Searches : list string;
  Options : list DNSOption
}.

(** Modelled from the spec: [ClusterDomain] is read by the [Part000] engine
    ([s.config.ClusterDomain]) but the [Config] struct of src/config.go has
    no such field; the spec names it the cluster domain from which the search
    list [{namespace}.svc.{clusterDomain}, svc.{clusterDomain},
    {clusterDomain}] is derived.  The other four fields are those of
    src/config.go. *)
Record Config : Type := {
  NodeLocalDNSAddress : string;
  SearchDomains : list string;
  DNSOptions : list DNSOption;
  ClusterDNSAddress : string;
  ClusterDomain : string
}.

(** ** k8s.io/apimachinery/pkg/apis/meta/v1 *)

Module metav1.

Record ObjectMeta : Type := {
  Name : string;
  Namespace : string;
  UID : string;
  (** labels, annotations, owner references, ...: never read *)
  OtherMeta : list (string * string)
}.

Record Status : Type := {
  Code : Z;
  Message : string
}.

(** Only [Kind] is read from a [GroupVersionKind]. *)
Record GroupVersionKind : Type := { Kind : string }.

(** Only [Resource] is read from a [GroupVersionResource]. *)
Record GroupVersionResource : Type := { Resource : string }.

End metav1.

(** ** k8s.io/api/core/v1 *)

Module corev1.

(** [type DNSPolicy string] *)
Definition DNSPolicy : Type := string.
Definition DNSClusterFirstWithHostNet : DNSPolicy := "ClusterFirstWithHostNet".
Definition DNSClusterFirst : DNSPolicy := "ClusterFirst".
Definition DNSDefault : DNSPolicy := "Default".
Definition DNSNone : DNSPolicy := "None".

Record PodDNSConfigOption : Type := {
  Name : string;
  (** [*string] *)
  Value : option string
}.

Record PodDNSConfig : Type := {
  Nameservers : list string;
  Searches : list string;
  Options : list PodDNSConfigOption
}.

Record PodSpec : Type := {
  DNSPolicy_ : DNSPolicy;
  (** [*PodDNSConfig] *)
  DNSConfig : option PodDNSConfig;
  HostNetwork : bool;
  (** containers, volumes, ...: never read *)
  OtherSpec : list (string * string)
}.

Record Pod : Type := {
  ObjectMeta : metav1.ObjectMeta;
  Spec : PodSpec
}.

(** [pod.DeepCopy()]: an equal value that shares nothing with [pod]. *)
Definition DeepCopy (pod : Pod) : Pod := pod.

Definition Name_of (pod : Pod) : string := metav1.Name (ObjectMeta pod).
Definition Namespace_of (pod : Pod) : string := metav1.Namespace (ObjectMeta pod).

Definition with_Namespace (pod : Pod) (ns : string) : Pod :=
  {| ObjectMeta :=
       {| metav1.Name := metav1.Name (ObjectMeta pod);
          metav1.Namespace := ns;
          metav1.UID := metav1.UID (ObjectMeta pod);
          metav1.OtherMeta := metav1.OtherMeta (ObjectMeta pod) |};
     Spec := Spec pod |}.

Definition with_DNSPolicy (pod : Pod) (p : DNSPolicy) : Pod :=
  {| ObjectMeta := ObjectMeta pod;
     Spec := {| DNSPolicy_ := p;
                DNSConfig := DNSConfig (Spec pod);
                HostNetwork := HostNetwork (Spec pod);
                OtherSpec := OtherSpec (Spec pod) |} |}.

Definition with_DNSConfig (pod : Pod) (c : option PodDNSConfig) : Pod :=
  {| ObjectMeta := ObjectMeta pod;
     Spec := {| DNSPolicy_ := DNSPolicy_ (Spec pod);
                DNSConfig := c;
                HostNetwork := HostNetwork (Spec pod);
                OtherSpec := OtherSpec (Spec pod) |} |}.

End corev1.

(** ** k8s.io/api/admission/v1 *)

Module admissionv1.

(** [type Operation string] *)
Definition Operation : Type := string.
Definition Create : Operation := "CREATE".
Definition Update : Operation := "UPDATE".
Definition Delete : Operation := "DELETE".
Definition Connect : Operation := "CONNECT".

Definition PatchTypeJSONPatch : string := "JSONPatch".

(** [runtime.RawExtension] *)
Record RawExtension : Type := { Raw : bytes }.

Record AdmissionRequest : Type := {
  UID : string;
  Kind : metav1.GroupVersionKind;
  Resource : metav1.GroupVersionResource;
  Name : string;
  Namespace : string;
  Operation_ : Operation;
  Object : RawExtension;
  OldObject : RawExtension
}.

Record AdmissionResponse : Type := {
  RespUID : string;
  Allowed : bool;
  (** [*metav1.Status] *)
  Result : option metav1.Status;
  Patch : bytes;
  (** [*PatchType] *)
  PatchType : option string
}.

(** The envelope; [Request] and [Response] are pointers. *)
Record AdmissionReview : Type := {
  Request : option AdmissionRequest;
  Response : option AdmissionResponse
}.

End admissionv1.

(** ** The injection policy (same text in both revisions) *)

(** The conversion done by the body of the option loop: [Value: &value]
    points at a fresh copy of [opt.Value]. *)
Definition convertOption (opt : DNSOption) : corev1.PodDNSConfigOption :=
  let value := Value opt in
  {| corev1.Name := Name opt; corev1.Value := Some value |}.

Definition zeroOption : corev1.PodDNSConfigOption :=
  {| corev1.Name := ""; corev1.Value := None |}.

(** The [corev1.PodDNSConfig] built on the injection path: three slices
    made at the source lengths, two filled by [copy], one by the loop. *)
Definition buildPodDNSConfig (dnsConfig : DNSConfig) : corev1.PodDNSConfig :=
  let podDNSConfig :=
    {| corev1.Nameservers := make "" (length (Nameservers dnsConfig));
       corev1.Searches := make "" (length (Searches dnsConfig));
       corev1.Options := make zeroOption (length (Options dnsConfig)) |} in
  let nameservers := copy (corev1.Nameservers podDNSConfig) (Nameservers dnsConfig) in
  let searches := copy (corev1.Searches podDNSConfig) (Searches dnsConfig) in
  let options :=
    range (fun i opt acc => assign acc i (convertOption opt))
          (Options dnsConfig) (corev1.Options podDNSConfig) in
  {| corev1.Nameservers := nameservers;
     corev1.Searches := searches;
     corev1.Options := options |}.

Definition isNil (A : Type) (p : option A) : bool :=
  match p with
  | None => true
  | Some _ => false
  end.

(** [injectDNSConfig(pod, dnsConfig)].  [pod] is a pointer the function
    tests against nil: [None] is the nil pointer, [Some p] a pointer whose
    pointee is [p].  The result is the pointee after the call (the function
    writes it through [*pod = *podCopy]) and the returned error.
    [dnsConfig] is dereferenced without a test and both callers pass the
    address of a fresh literal, so it is taken by value. *)
Definition injectDNSConfig (pod : option corev1.Pod) (dnsConfig : DNSConfig)
  : option corev1.Pod * error :=
  match pod with
  | None => (None, None)
  | Some p =>
    if negb (isNil (corev1.DNSConfig (corev1.Spec p))) then
      (* already has DNS configuration *)
      (Some p, None)
    else if (corev1.DNSPolicy_ (corev1.Spec p) =? corev1.DNSNone)%string then
      (Some p, None)
    else if corev1.HostNetwork (corev1.Spec p)
            && negb (corev1.DNSPolicy_ (corev1.Spec p)
                     =? corev1.DNSClusterFirstWithHostNet)%string then
      (Some p, None)
    else
      let podCopy := corev1.DeepCopy p in
      let podCopy := corev1.with_DNSPolicy podCopy corev1.DNSNone in
      let podDNSConfig := buildPodDNSConfig dnsConfig in
      let podCopy := corev1.with_DNSConfig podCopy (Some podDNSConfig) in
      (Some podCopy, None)
  end.

(** ** The patch codec (same text in both revisions) *)

(** The [interface{}] stored under ["value"]: a string for the policy
    operation, the [*corev1.PodDNSConfig] of the modified pod for the
    configuration operation. *)
Inductive PatchValue : Type :=
| StringValue (s : string)
| DNSConfigValue (c : corev1.PodDNSConfig).

(** One [map[string]interface{}] with the keys ["op"], ["path"], ["value"]. *)
Record PatchOperation : Type := {
  op : string;
  path : string;
  value : PatchValue
}.

(** The slice [patches] of [generateJSONPatch] as it stands before it is
    marshalled.  [original] is not read. *)
Definition patchOperations (original modified : corev1.Pod) : list PatchOperation :=
  let patches := [] in
  let patches :=
    patches ++ [ {| op := "replace";
                    path := "/spec/dnsPolicy";
                    value := StringValue corev1.DNSNone |} ] in
  let patches :=
    match corev1.DNSConfig (corev1.Spec modified) with
    | Some c =>
      patches ++ [ {| op := "add";
                      path := "/spec/dnsConfig";
                      value := DNSConfigValue c |} ]
    | None => patches
    end in
  patches.

Section PatchCodec.

(** [json.Marshal] on a slice of patch operations. *)
Variable json_Marshal : list PatchOperation -> result string.

Definition generateJSONPatch (original modified : corev1.Pod) : result string :=
  match json_Marshal (patchOperations original modified) with
  | Err err => Err ("failed to marshal JSON patch: " ++ err)%string
  | Ok patchBytes => Ok patchBytes
  end.

End PatchCodec.

Definition createErrorResponse (uid : string) (message : string)
  : admissionv1.AdmissionResponse :=
  {| admissionv1.RespUID := uid;
     admissionv1.Allowed := false;
     admissionv1.Result := Some {| metav1.Code := 400; metav1.Message := message |};
     admissionv1.Patch := None;
     admissionv1.PatchType := None |}.

(** The base response every engine revision starts from. *)
Definition baseResponse (req : admissionv1.AdmissionRequest)
  : admissionv1.AdmissionResponse :=
  {| admissionv1.RespUID := admissionv1.UID req;
     admissionv1.Allowed := true;
     admissionv1.Result := None;
     admissionv1.Patch := None;
     admissionv1.PatchType := None |}.

(** [response.Patch = patch; response.PatchType = &patchType] *)
Definition withPatch (response : admissionv1.AdmissionResponse) (patch : string)
  : admissionv1.AdmissionResponse :=
  {| admissionv1.RespUID := admissionv1.RespUID response;
     admissionv1.Allowed := admissionv1.Allowed response;
     admissionv1.Result := admissionv1.Result response;
     admissionv1.Patch := Some patch;
     admissionv1.PatchType := Some admissionv1.PatchTypeJSONPatch |}.

(** The statements both revisions end with once the working copy is ready:
    patch generation, then the denial or the patched response. *)
Definition respondWithPatch (json_Marshal : list PatchOperation -> result string)
           (req : admissionv1.AdmissionRequest)
           (response : admissionv1.AdmissionResponse)
           (pod podCopy : corev1.Pod) : admissionv1.AdmissionResponse :=
  match generateJSONPatch json_Marshal pod podCopy with
  | Err err =>
    createErrorResponse (admissionv1.UID req) ("Failed to generate patch: " ++ err)%string
  | Ok patch => withPatch response patch
  end.

(** The pointee of a pointer known to be non-nil at the call ([dflt] is the
    value it held before the call). *)
Definition pointee (A : Type) (cell : option A) (dflt : A) : A :=
  match cell with
  | Some a => a
  | None => dflt
  end.

Definition isPodRequest (req : admissionv1.AdmissionRequest) : bool :=
  (metav1.Kind (admissionv1.Kind req) =? "Pod")%string
  && (metav1.Resource (admissionv1.Resource req) =? "pods")%string.

(** ** The decision engine, revision of src/unnamed/part_000 *)

Module Part000.
Section Engine.

(** [json.Unmarshal(raw, &pod)] into a zero [corev1.Pod]. *)
Variable json_Unmarshal : string -> result corev1.Pod.
Variable json_Marshal : list PatchOperation -> result string.
(** [s.config] *)
Variable config : Config.

Definition processAdmissionRequest (req : admissionv1.AdmissionRequest)
  : admissionv1.AdmissionResponse :=
  let response := baseResponse req in
  if negb (metav1.Kind (admissionv1.Kind req) =? "Pod")%string
     || negb (metav1.Resource (admissionv1.Resource req) =? "pods")%string
  then response
  else
    match json_Unmarshal (slice_contents (admissionv1.Raw (admissionv1.Object req))) with
    | Err err =>
      createErrorResponse (admissionv1.UID req) ("Failed to parse pod: " ++ err)%string
    | Ok pod =>
      let podCopy := corev1.DeepCopy pod in
      if (admissionv1.Operation_ req =? admissionv1.Create)%string then
        let domains :=
          [ (corev1.Namespace_of pod ++ ".svc." ++ ClusterDomain config)%string;
            ("svc." ++ ClusterDomain config)%string;
            ClusterDomain config ] in
        let dnsConfig :=
          {| Nameservers := [NodeLocalDNSAddress config; ClusterDNSAddress config];
             Searches := domains;
             Options := DNSOptions config |} in
        match injectDNSConfig (Some podCopy) dnsConfig with
        | (_, Some err) =>
          createErrorResponse (admissionv1.UID req)
                              ("Failed to inject DNS configuration: " ++ err)%string
        | (cell, None) =>
          respondWithPatch json_Marshal req response pod (pointee cell podCopy)
        end
      else if (admissionv1.Operation_ req =? admissionv1.Update)%string then
        match json_Unmarshal
                (slice_contents (admissionv1.Raw (admissionv1.OldObject req))) with
        | Err err =>
          createErrorResponse (admissionv1.UID req) ("Failed to parse pod: " ++ err)%string
        | Ok oldPod =>
          let podCopy :=
            corev1.with_DNSConfig podCopy (corev1.DNSConfig (corev1.Spec oldPod)) in
          let podCopy :=
            corev1.with_DNSPolicy podCopy (corev1.DNSPolicy_ (corev1.Spec oldPod)) in
          respondWithPatch json_Marshal req response pod podCopy
        end
      else response
    end.

(** The working copy handed to [generateJSONPatch] in the Update case. *)
Definition updateWorkingCopy (pod oldPod : corev1.Pod) : corev1.Pod :=
  corev1.with_DNSPolicy
    (corev1.with_DNSConfig (corev1.DeepCopy pod) (corev1.DNSConfig (corev1.Spec oldPod)))
    (corev1.DNSPolicy_ (corev1.Spec oldPod)).

End Engine.
End Part000.

(** ** The decision engine, revision of src/unnamed/part_001 *)

Module Part001.
Section Engine.

Variable json_Unmarshal : string -> result corev1.Pod.
Variable json_Marshal : list PatchOperation -> result string.
Variable config : Config.

Definition parsePodFromRequest (req : admissionv1.AdmissionRequest)
  : result corev1.Pod :=
  match admissionv1.Raw (admissionv1.Object req) with
  | None => Err "admission request object is nil"
  | Some raw =>
    match json_Unmarshal raw with
    | Err err => Err ("failed to unmarshal pod object: " ++ err)%string
    | Ok pod =>
      let pod :=
        if (corev1.Namespace_of pod =? "")%string
           && negb (admissionv1.Namespace req =? "")%string
        then corev1.with_Namespace pod (admissionv1.Namespace req)
        else pod in
      Ok pod
    end
  end.

Definition createDNSConfig (webhookConfig : Config) : DNSConfig :=
  let nameservers := [NodeLocalDNSAddress webhookConfig] in
  let nameservers :=
    if negb (ClusterDNSAddress webhookConfig =? "")%string
    then nameservers ++ [ClusterDNSAddress webhookConfig]
    else nameservers in
  {| Nameservers := nameservers;
     Searches := SearchDomains webhookConfig;
     Options := DNSOptions webhookConfig |}.

(** [startTime] is only logged and is left out. *)
Definition processAdmissionRequest (req : admissionv1.AdmissionRequest)
  : admissionv1.AdmissionResponse :=
  let response := baseResponse req in
  if negb (metav1.Kind (admissionv1.Kind req) =? "Pod")%string
     || negb (metav1.Resource (admissionv1.Resource req) =? "pods")%string
  then response
  else if negb (admissionv1.Operation_ req =? admissionv1.Create)%string
          && negb (admissionv1.Operation_ req =? admissionv1.Update)%string
  then response
  else
    match parsePodFromRequest req with
    | Err err =>
      createErrorResponse (admissionv1.UID req) ("Failed to parse pod: " ++ err)%string
    | Ok pod =>
      let dnsConfig := createDNSConfig config in
      let podCopy := corev1.DeepCopy pod in
      match injectDNSConfig (Some podCopy) dnsConfig with
      | (_, Some err) =>
        createErrorResponse (admissionv1.UID req)
                            ("Failed to inject DNS configuration: " ++ err)%string
      | (cell, None) =>
        respondWithPatch json_Marshal req response pod (pointee cell podCopy)
      end
    end.

End Engine.
End Part001.

(** ** The HTTP front, src/server.go *)

Module Server.

Definition ContentTypeJSON : string := "application/json".
Definition MethodPost : string := "POST".
Definition StatusOK : Z := 200.
Definition StatusBadRequest : Z := 400.
Definition StatusMethodNotAllowed : Z := 405.
Definition StatusInternalServerError : Z := 500.

(** What the handler reads of an [*http.Request]: the method, the header
    (canonical keys) and the outcome of [io.ReadAll(r.Body)]. *)
Record Request : Type := {
  Method : string;
  Header : list (string * string);
  Body : result string
}.

(** [Header.Get]: the first value under the key, the empty string when
    there is none. *)
Fixpoint Header_Get (h : list (string * string)) (key : string) : string :=
  match h with
  | [] => ""
  | (k, v) :: tl => if (k =? key)%string then v else Header_Get tl key
  end.

Definition Header_Set (h : list (string * string)) (key v : string)
  : list (string * string) :=
  (key, v) :: filter (fun kv => negb (fst kv =? key)%string) h.

(** What is written to the body: the error object of
    [writeErrorResponse], or marshalled bytes. *)
Inductive Payload : Type :=
| ErrorJSON (code : Z) (message : string)
| RawJSON (b : string).

(** The state of an [http.ResponseWriter]. *)
Record ResponseWriter : Type := {
  wHeader : list (string * string);
  (** the status line once it is sent *)
  wStatus : option Z;
  wBody : list Payload
}.

(** The handler's world: the writer, the requests handed to the decision
    engine so far, and whether the goroutine panicked. *)
Record World : Type := {
  writer : ResponseWriter;
  decided : list admissionv1.AdmissionRequest;
  panicked : bool
}.

Definition freshWriter : ResponseWriter :=
  {| wHeader := []; wStatus := None; wBody := [] |}.

Definition initial : World :=
  {| writer := freshWriter; decided := []; panicked := false |}.

(** A handler step: a value and the next world. *)
Definition M (A : Type) : Type := World -> A * World.

Definition ret (A : Type) (a : A) : M A := fun st => (a, st).

Definition bind (A B : Type) (c : M A) (k : A -> M B) : M B :=
  fun st => let (a, st') := c st in k a st'.

Declare Scope handler_scope.
Delimit Scope handler_scope with handler.
Notation "x <- c ;; k" := (bind c (fun x => k))
  (at level 100, c at next level, right associativity) : handler_scope.
Notation "c ;; k" := (bind c (fun _ => k))
  (at level 100, right associativity) : handler_scope.
Local Open Scope handler_scope.

Definition onWriter (f : ResponseWriter -> ResponseWriter) : M unit :=
  fun st => (tt, {| writer := f (writer st);
                    decided := decided st;
                    panicked := panicked st |}).

(** [w.Header().Set(key, v)] *)
Definition SetHeader (key v : string) : M unit :=
  onWriter (fun w => {| wHeader := Header_Set (wHeader w) key v;
                        wStatus := wStatus w;
                        wBody := wBody w |}).

(** [w.WriteHeader(code)]: only the first call sends a status. *)
Definition WriteHeader (code : Z) : M unit :=
  onWriter (fun w => {| wHeader := wHeader w;
                        wStatus := match wStatus w with
                                   | Some c => Some c
                                   | None => Some code
                                   end;
                        wBody := wBody w |}).

(** [w.Write]: sends 200 first when no status was sent. *)
Definition Write (p : Payload) : M unit :=
  onWriter (fun w => {| wHeader := wHeader w;
                        wStatus := match wStatus w with
                                   | Some c => Some c
                                   | None => Some StatusOK
                                   end;
                        wBody := wBody w ++ [p] |}).

(** A nil dereference: the goroutine panics and writes nothing more. *)
Definition panic : M unit :=
  fun st => (tt, {| writer := writer st;
                    decided := decided st;
                    panicked := true |}).

Definition writeErrorResponse (statusCode : Z) (message : string) : M unit :=
  SetHeader "Content-Type" ContentTypeJSON ;;
  WriteHeader statusCode ;;
  Write (ErrorJSON statusCode message).

Section Handler.

(** [json.Unmarshal(body, &admissionReview)] *)
Variable json_Unmarshal : string -> result admissionv1.AdmissionReview.
(** [json.Marshal(admissionResponse)] *)
Variable json_Marshal : admissionv1.AdmissionReview -> result string.
(** [s.processAdmissionRequest], the decision engine *)
Variable processAdmissionRequest :
  admissionv1.AdmissionRequest -> admissionv1.AdmissionResponse.

(** A call of the decision engine, recorded in the world. *)
Definition decide (req : admissionv1.AdmissionRequest)
  : M admissionv1.AdmissionResponse :=
  fun st => (processAdmissionRequest req,
             {| writer := writer st;
                decided := decided st ++ [req];
                panicked := panicked st |}).

Definition parseAdmissionReview (body : string)
  : result admissionv1.AdmissionReview :=
  match json_Unmarshal body with
  | Err err => Err ("failed to unmarshal admission review: " ++ err)%string
  | Ok admissionReview =>
    match admissionv1.Request admissionReview with
    | None => Err "admission review request is nil"
    | Some request =>
      if (admissionv1.UID request =? "")%string
      then Err "admission review request UID is empty"
      else Ok admissionReview
    end
  end.

Definition HandleInject (r : Request) : M unit :=
  if negb (Method r =? MethodPost)%string then
    writeErrorResponse StatusMethodNotAllowed "Only POST method is allowed"
  else
    let contentType := Header_Get (Header r) "Content-Type" in
    if negb (contentType =? ContentTypeJSON)%string then
      writeErrorResponse StatusBadRequest "Content-Type must be application/json"
    else
      match Body r with
      | Err _ =>
        writeErrorResponse StatusBadRequest "Failed to read request body"
      | Ok body =>
        match parseAdmissionReview body with
        | Err err =>
          writeErrorResponse StatusBadRequest
                             ("Failed to parse admission review: " ++ err)%string
        | Ok admissionReview =>
          match admissionv1.Request admissionReview with
          | None => panic
          | Some request =>
            response <- decide request ;;
            let admissionResponse :=
              {| admissionv1.Request := None;
                 admissionv1.Response := Some response |} in
            match json_Marshal admissionResponse with
            | Err _ =>
              writeErrorResponse StatusInternalServerError
                                 "Failed to marshal response"
            | Ok responseBytes =>
              SetHeader "Content-Type" ContentTypeJSON ;;
              WriteHeader StatusOK ;;
              Write (RawJSON responseBytes)
            end
          end
        end
      end.

(** The world a fresh writer is left in by one call of the handler. *)
Definition serve (r : Request) : World := snd (HandleInject r initial).

End Handler.

End Server.

(** ** Properties stated about the engine *)

(** The three skip conditions of [injectDNSConfig], in the order in which
    the function tests them. *)
Inductive SkipReason : Type :=
| HasDNSConfig
| PolicyIsNone
| HostNetworkWithoutOptIn.

Definition holds (r : SkipReason) (p : corev1.Pod) : Prop :=
  match r with
  | HasDNSConfig => corev1.DNSConfig (corev1.Spec p) <> None
  | PolicyIsNone => corev1.DNSPolicy_ (corev1.Spec p) = corev1.DNSNone
  | HostNetworkWithoutOptIn =>
    corev1.HostNetwork (corev1.Spec p) = true
    /\ corev1.DNSPolicy_ (corev1.Spec p) <> corev1.DNSClusterFirstWithHostNet
  end.

(** The first condition that matches, if any. *)
Definition firstSkip (p : corev1.Pod) : option SkipReason :=
  if negb (isNil (corev1.DNSConfig (corev1.Spec p))) then Some HasDNSConfig
  else if (corev1.DNSPolicy_ (corev1.Spec p) =? corev1.DNSNone)%string
       then Some PolicyIsNone
  else if corev1.HostNetwork (corev1.Spec p)
          && negb (corev1.DNSPolicy_ (corev1.Spec p)
                   =? corev1.DNSClusterFirstWithHostNet)%string
       then Some HostNetworkWithoutOptIn
  else None.

(** The reasons tested before a given one. *)
Definition testedBefore (r r0 : SkipReason) : bool :=
  match r, r0 with
  | HasDNSConfig, (PolicyIsNone | HostNetworkWithoutOptIn) => true
  | PolicyIsNone, HostNetworkWithoutOptIn => true
  | _, _ => false
  end.

(** The pod a working copy of [p] becomes under [injectDNSConfig]. *)
Definition injected (p : corev1.Pod) (d : DNSConfig) : corev1.Pod :=
  pointee (fst (injectDNSConfig (Some (corev1.DeepCopy p)) d)) (corev1.DeepCopy p).

(** The response invariant of the data model. *)
Definition responseInvariant (resp : admissionv1.AdmissionResponse) : Prop :=
  (admissionv1.Allowed resp = false ->
   admissionv1.Patch resp = None /\ admissionv1.PatchType resp = None)
  /\ (admissionv1.Patch resp <> None -> admissionv1.Allowed resp = true).

(** Does the response report the denial of the injection branch? *)
Definition reportsInjectionFailure (resp : admissionv1.AdmissionResponse) : bool :=
  match admissionv1.Result resp with
  | Some st => String.prefix "Failed to inject DNS configuration" (metav1.Message st)
  | None => false
  end.

(** The policy operation every patch starts with, and the configuration
    operation that may follow it. *)
Definition replacePolicy (v : string) : PatchOperation :=
  {| op := "replace"; path := "/spec/dnsPolicy"; value := StringValue v |}.

Definition addConfig (c : corev1.PodDNSConfig) : PatchOperation :=
  {| op := "add"; path := "/spec/dnsConfig"; value := DNSConfigValue c |}.

(** The opt-out conditions as the patch-shape property lists them. *)
Definition optsOut (p : corev1.Pod) : Prop :=
  corev1.DNSPolicy_ (corev1.Spec p) = corev1.DNSNone
  \/ (corev1.HostNetwork (corev1.Spec p) = true
      /\ corev1.DNSPolicy_ (corev1.Spec p) <> corev1.DNSClusterFirstWithHostNet)
  \/ corev1.DNSConfig (corev1.Spec p) <> None.

(** The patch-shape property in the words of the specification: every patch
    starts with a replace of the policy by the modified pod's policy, and
    for a pod that opts out the patch is that one operation, carrying the
    original policy. *)
Definition specPatchShape : Prop :=
  (forall original modified : corev1.Pod,
      exists rest,
        patchOperations original modified
        = replacePolicy (corev1.DNSPolicy_ (corev1.Spec modified)) :: rest)
  /\ (forall (d : DNSConfig) (original : corev1.Pod),
         optsOut original ->
         patchOperations original (injected original d)
         = [replacePolicy (corev1.DNSPolicy_ (corev1.Spec original))]).

(** The operations after the leading replace: the modified pod's DNS
    configuration, re-added whenever it is non-nil. *)
Definition configOperations (modified : corev1.Pod) : list PatchOperation :=
  match corev1.DNSConfig (corev1.Spec modified) with
  | Some c => [addConfig c]
  | None => []
  end.

(** The [DNSConfig] literal the [Part000] engine builds on Create. *)
Definition derivedDNSConfig (config : Config) (pod : corev1.Pod) : DNSConfig :=
  {| Nameservers := [NodeLocalDNSAddress config; ClusterDNSAddress config];
     Searches := [ (corev1.Namespace_of pod ++ ".svc." ++ ClusterDomain config)%string;
                   ("svc." ++ ClusterDomain config)%string;
                   ClusterDomain config ];
     Options := DNSOptions config |}.

(** The failures the engine answers with a denial. *)
Inductive DenialCause : Type :=
| ObjectParse
| PriorObjectParse
| PatchSerialization.

Definition denialMessage (c : DenialCause) (detail : string) : string :=
  match c with
  | ObjectParse | PriorObjectParse => ("Failed to parse pod: " ++ detail)%string
  | PatchSerialization => ("Failed to generate patch: " ++ detail)%string
  end.

(** What went wrong, per cause, in the [Part000] engine. *)
Definition causedBy000 (json_Unmarshal : string -> result corev1.Pod)
           (json_Marshal : list PatchOperation -> result string)
           (req : admissionv1.AdmissionRequest)
           (c : DenialCause) (detail : string) : Prop :=
  match c with
  | ObjectParse =>
    json_Unmarshal (slice_contents (admissionv1.Raw (admissionv1.Object req)))
    = Err detail
  | PriorObjectParse =>
    admissionv1.Operation_ req = admissionv1.Update
    /\ json_Unmarshal (slice_contents (admissionv1.Raw (admissionv1.OldObject req)))
       = Err detail
  | PatchSerialization =>
    exists ops err,
      json_Marshal ops = Err err
      /\ detail = ("failed to marshal JSON patch: " ++ err)%string
  end.

(** What went wrong, per cause, in the [Part001] engine, which never reads
    the prior object. *)
Definition causedBy001 (json_Unmarshal : string -> result corev1.Pod)
           (json_Marshal : list PatchOperation -> result string)
           (req : admissionv1.AdmissionRequest)
           (c : DenialCause) (detail : string) : Prop :=
  match c with
  | ObjectParse => Part001.parsePodFromRequest json_Unmarshal req = Err detail
  | PriorObjectParse => False
  | PatchSerialization =>
    exists ops err,
      json_Marshal ops = Err err
      /\ detail = ("failed to marshal JSON patch: " ++ err)%string
  end.

(** The three shapes a response of the engine can have. *)
Inductive Outcome (causedBy : DenialCause -> string -> Prop)
          (req : admissionv1.AdmissionRequest)
          (resp : admissionv1.AdmissionResponse) : Prop :=
| Untouched : resp = baseResponse req -> Outcome causedBy req resp
| Patched (patch : string) :
    resp = withPatch (baseResponse req) patch -> Outcome causedBy req resp
| Denied (c : DenialCause) (detail : string) :
    causedBy c detail ->
    resp = createErrorResponse (admissionv1.UID req) (denialMessage c detail) ->
    Outcome causedBy req resp.

(** The transport-level validation failures of [HandleInject]. *)
Inductive TransportFailure
          (json_Unmarshal : string -> result admissionv1.AdmissionReview)
          (r : Server.Request) : Prop :=
| WrongMethod :
    Server.Method r <> Server.MethodPost -> TransportFailure json_Unmarshal r
| WrongContentType :
    Server.Header_Get (Server.Header r) "Content-Type" <> Server.ContentTypeJSON ->
    TransportFailure json_Unmarshal r
| UnparsableEnvelope (body err : string) :
    Server.Body r = Ok body ->
    json_Unmarshal body = Err err ->
    TransportFailure json_Unmarshal r
| NilRequest (body : string) (review : admissionv1.AdmissionReview) :
    Server.Body r = Ok body ->
    json_Unmarshal body = Ok review ->
    admissionv1.Request review = None ->
    TransportFailure json_Unmarshal r
| EmptyUID (body : string) (review : admissionv1.AdmissionReview)
           (request : admissionv1.AdmissionRequest) :
    Server.Body r = Ok body ->
    json_Unmarshal body = Ok review ->
    admissionv1.Request review = Some request ->
    admissionv1.UID request = "" ->
    TransportFailure json_Unmarshal r.

(** The world after [writeErrorResponse] on a fresh writer, the engine not
    called. *)
Definition rejected (code : Z) (message : string) : Server.World :=
  {| Server.writer :=
       {| Server.wHeader := [("Content-Type", Server.ContentTypeJSON)];
          Server.wStatus := Some code;
          Server.wBody := [Server.ErrorJSON code message] |};
     Server.decided := [];
     Server.panicked := false |}.

(** ** Sample configuration, pods, requests and codecs *)

Module Sample.

Definition config : Config :=
  {| NodeLocalDNSAddress := "169.254.20.10";
     SearchDomains := ["default.svc.cluster.local"; "svc.cluster.local"; "cluster.local"];
     DNSOptions := [ {| Name := "ndots"; Value := "3" |};
                     {| Name := "attempts"; Value := "2" |};
                     {| Name := "timeout"; Value := "1" |} ];
     ClusterDNSAddress := "10.96.0.10";
     ClusterDomain := "cluster.local" |}.

Definition meta (name ns : string) : metav1.ObjectMeta :=
  {| metav1.Name := name; metav1.Namespace := ns;
     metav1.UID := ""; metav1.OtherMeta := [] |}.

Definition pod (policy : string) (c : option corev1.PodDNSConfig) (hostNet : bool)
  : corev1.Pod :=
  {| corev1.ObjectMeta := meta "web" "ns";
     corev1.Spec := {| corev1.DNSPolicy_ := policy;
                       corev1.DNSConfig := c;
                       corev1.HostNetwork := hostNet;
                       corev1.OtherSpec := [("containers", "[...]")] |} |}.

(** No DNS policy, no DNS config, not on the host network. *)
Definition barePod : corev1.Pod := pod "" None false.

(** On the host network with the plain cluster-first policy. *)
Definition hostNetPod : corev1.Pod := pod corev1.DNSClusterFirst None true.

Definition ownConfig : corev1.PodDNSConfig :=
  {| corev1.Nameservers := ["1.1.1.1"]; corev1.Searches := []; corev1.Options := [] |}.

(** Brings its own DNS config under the cluster-first policy. *)
Definition configuredPod : corev1.Pod := pod corev1.DNSClusterFirst (Some ownConfig) false.

(** Opted out by policy None, with its own DNS config. *)
Definition selfManagedPod : corev1.Pod := pod corev1.DNSNone (Some ownConfig) false.

(** The stored pod of an update: cluster-first, no DNS config. *)
Definition storedPod : corev1.Pod := pod corev1.DNSClusterFirst None false.

(** The pod an update asks for: the policy changed to Default. *)
Definition requestedPod : corev1.Pod := pod corev1.DNSDefault None false.

(** The documents the sample decoder knows, by name. *)
Definition decodePod (raw : string) : result corev1.Pod :=
  if (raw =? "")%string then Err "unexpected end of JSON input"
  else if (raw =? "<bare pod>")%string then Ok barePod
  else if (raw =? "<host-network pod>")%string then Ok hostNetPod
  else if (raw =? "<pod with its own dnsConfig>")%string then Ok configuredPod
  else if (raw =? "<stored pod>")%string then Ok storedPod
  else if (raw =? "<requested pod>")%string then Ok requestedPod
  else Err "invalid character".

Fixpoint join (l : list string) : string :=
  match l with
  | [] => ""
  | [x] => x
  | x :: tl => (x ++ "," ++ join tl)%string
  end.

Definition showOption (o : corev1.PodDNSConfigOption) : string :=
  (corev1.Name o ++ "=" ++ match corev1.Value o with
                           | Some v => v
                           | None => "null"
                           end)%string.

Definition showValue (v : PatchValue) : string :=
  match v with
  | StringValue s => s
  | DNSConfigValue c =>
    ("{nameservers:[" ++ join (corev1.Nameservers c)
     ++ "],searches:[" ++ join (corev1.Searches c)
     ++ "],options:[" ++ join (map showOption (corev1.Options c)) ++ "]}")%string
  end.

Definition showOperation (o : PatchOperation) : string :=
  ("{op:" ++ op o ++ ",path:" ++ path o ++ ",value:" ++ showValue (value o) ++ "}")%string.

(** A total encoder of patches (a readable rendering, not JSON proper). *)
Definition encodePatch (ops : list PatchOperation) : result string :=
  Ok ("[" ++ join (map showOperation ops) ++ "]")%string.

(** An encoder that always fails, to reach the serialization branch. *)
Definition failingEncodePatch (ops : list PatchOperation) : result string :=
  Err "unsupported value".

Definition request (kind resource operation : string) (object oldObject : bytes)
  : admissionv1.AdmissionRequest :=
  {| admissionv1.UID := "705ab4f5-6393-11e8-b7cc-42010a800002";
     admissionv1.Kind := {| metav1.Kind := kind |};
     admissionv1.Resource := {| metav1.Resource := resource |};
     admissionv1.Name := "web";
     admissionv1.Namespace := "ns";
     admissionv1.Operation_ := operation;
     admissionv1.Object := {| admissionv1.Raw := object |};
     admissionv1.OldObject := {| admissionv1.Raw := oldObject |} |}.

Definition createBare : admissionv1.AdmissionRequest :=
  request "Pod" "pods" admissionv1.Create (Some "<bare pod>") None.

Definition createUnparsable : admissionv1.AdmissionRequest :=
  request "Pod" "pods" admissionv1.Create (Some "{") None.

(** A pod deletion: the API server sends no object. *)
Definition deletePod : admissionv1.AdmissionRequest :=
  request "Pod" "pods" admissionv1.Delete None (Some "<stored pod>").

Definition updatePolicy : admissionv1.AdmissionRequest :=
  request "Pod" "pods" admissionv1.Update (Some "<requested pod>") (Some "<stored pod>").

(** The envelope decoder: one well-formed review, wrapping [createBare]. *)
Definition decodeReview (body : string) : result admissionv1.AdmissionReview :=
  if (body =? "<review of createBare>")%string
  then Ok {| admissionv1.Request := Some createBare; admissionv1.Response := None |}
  else if (body =? "{}")%string
  then Ok {| admissionv1.Request := None; admissionv1.Response := None |}
  else Err "invalid character".

Definition encodeReview (r : admissionv1.AdmissionReview) : result string :=
  Ok "<review>".

Definition getRequest : Server.Request :=
  {| Server.Method := "GET";
     Server.Header := [("Content-Type", "application/json")];
     Server.Body := Ok "<review of createBare>" |}.

Definition textRequest : Server.Request :=
  {| Server.Method := "POST";
     Server.Header := [("Content-Type", "text/plain")];
     Server.Body := Ok "<review of createBare>" |}.

End Sample.

(** ** Go's [strings] and [strconv], as far as src/config.go calls them *)

Module strings.

(** [strings.Split(s, sep)] for a separator of one byte, which is what
    every call of config.go passes (["."], [","], [":"]): the pieces between
    the occurrences of [sep], in order; one piece more than there are
    occurrences, so never the empty slice. *)
Fixpoint Split (s : string) (sep : ascii) : list string :=
  match s with
  | EmptyString => [""]
  | String c rest =>
    if (c =? sep)%char then "" :: Split rest sep
    else match Split rest sep with
         | piece :: pieces => String c piece :: pieces
         | [] => [String c ""]
         end
  end.

(** [strings.Join(elems, sep)] for the same separators. *)
Definition Join (elems : list string) (sep : ascii) : string :=
  String.concat (String sep "") elems.

(** [strings.Count(s, sep)] for the same separators. *)
Fixpoint Count (s : string) (sep : ascii) : nat :=
  match s with
  | EmptyString => 0
  | String c rest => (if (c =? sep)%char then 1 else 0) + Count rest sep
  end.

End strings.

Module strconv.

(** The value of a decimal digit. *)
Definition digit (c : ascii) : option Z :=
  let n := Z.of_nat (nat_of_ascii c) in
  if (48 <=? n)%Z && (n <=? 57)%Z then Some (n - 48)%Z else None.

(** The loop [n = n*10 + int(ch)] over the bytes after the sign. *)
Fixpoint digits (s : string) (n : Z) : option Z :=
  match s with
  | EmptyString => Some n
  | String ch rest =>
    match digit ch with
    | Some d => digits rest (n * 10 + d)%Z
    | None => None
    end
  end.

(** The bounds of [int] on the build target (GOARCH=amd64). *)
Definition minInt : Z := (- 2 ^ 63)%Z.
Definition maxInt : Z := (2 ^ 63 - 1)%Z.

(** What [strconv.Atoi] does once the sign is read: one decimal digit or
    more, the signed value inside [int].  The error's text is dropped by
    the only caller and is shortened here. *)
Definition unsigned (neg : bool) (body : string) : result Z :=
  match body with
  | EmptyString => Err "invalid syntax"
  | _ =>
    match digits body 0 with
    | None => Err "invalid syntax"
    | Some n =>
      let v := if neg then (- n)%Z else n in
      if (minInt <=? v)%Z && (v <=? maxInt)%Z then Ok v else Err "value out of range"
    end
  end.

(** [strconv.Atoi]: an optional sign, then the digits. *)
Definition Atoi (s : string) : result Z :=
  match s with
  | String c rest =>
    if (c =? "-")%char then unsigned true rest
    else if (c =? "+")%char then unsigned false rest
    else unsigned false s
  | EmptyString => unsigned false s
  end.

End strconv.

(** ** src/config.go: defaults, loading and validation *)

Definition EnvNodeLocalDNSAddress : string := "NODE_LOCAL_DNS_ADDRESS".
Definition EnvSearchDomains : string := "SEARCH_DOMAINS".
Definition EnvDNSOptions : string := "DNS_OPTIONS".

(** The struct literal sets the four fields of src/config.go;
    [ClusterDomain], which that file does not have, keeps the zero value. *)
Definition DefaultConfig : Config :=
  {| NodeLocalDNSAddress := "169.254.20.10";
     SearchDomains := [ "default.svc.cluster.local";
                        "svc.cluster.local";
                        "cluster.local" ];
     DNSOptions := [ {| Name := "ndots"; Value := "3" |};
                     {| Name := "attempts"; Value := "2" |};
                     {| Name := "timeout"; Value := "1" |} ];
     ClusterDNSAddress := "10.96.0.10";
     ClusterDomain := "" |}.

Definition with_NodeLocalDNSAddress (config : Config) (addr : string) : Config :=
  {| NodeLocalDNSAddress := addr;
     SearchDomains := SearchDomains config;
     DNSOptions := DNSOptions config;
     ClusterDNSAddress := ClusterDNSAddress config;
     ClusterDomain := ClusterDomain config |}.

Definition with_SearchDomains (config : Config) (domains : list string) : Config :=
  {| NodeLocalDNSAddress := NodeLocalDNSAddress config;
     SearchDomains := domains;
     DNSOptions := DNSOptions config;
     ClusterDNSAddress := ClusterDNSAddress config;
     ClusterDomain := ClusterDomain config |}.

Definition with_DNSOptions (config : Config) (options : list DNSOption) : Config :=
  {| NodeLocalDNSAddress := NodeLocalDNSAddress config;
     SearchDomains := SearchDomains config;
     DNSOptions := options;
     ClusterDNSAddress := ClusterDNSAddress config;
     ClusterDomain := ClusterDomain config |}.

Definition with_ClusterDNSAddress (config : Config) (addr : string) : Config :=
  {| NodeLocalDNSAddress := NodeLocalDNSAddress config;
     SearchDomains := SearchDomains config;
     DNSOptions := DNSOptions config;
     ClusterDNSAddress := addr;
     ClusterDomain := ClusterDomain config |}.

(** The loop of [validateIPAddress] over the parts: the first part that is
    no number, or is one outside 0..255, ends it with an error. *)
Fixpoint validateOctets (parts : list string) : error :=
  match parts with
  | [] => None
  | part :: rest =>
    match strconv.Atoi part with
    | Err _ => Some ("invalid IP address octet: " ++ part)%string
    | Ok num =>
      if (num <? 0)%Z || (num >? 255)%Z
      then Some ("invalid IP address octet: " ++ part)%string
      else validateOctets rest
    end
  end.

Definition validateIPAddress (ip : string) : error :=
  let parts := strings.Split ip "." in
  if negb (length parts =? 4)%nat then Some "invalid IP address format"
  else validateOctets parts.

Section ConfigLoader.

(** [strings.TrimSpace], which knows the Unicode white space. *)
Variable TrimSpace : string -> string.
(** [os.Getenv]: the value of the variable, empty when it is not set. *)
Variable Getenv : string -> string.

(** The loop of [parseDNSOptions], [options] being the slice built so far
    and [pairStr] the loop variable [pair]. *)
Fixpoint parseDNSOptionPairs (pairs : list string) (options : list DNSOption)
  : result (list DNSOption) :=
  match pairs with
  | [] => Ok options
  | pairStr :: rest =>
    let parts := strings.Split (TrimSpace pairStr) ":" in
    match parts with
    | [part0; part1] =>
      let name := TrimSpace part0 in
      let value := TrimSpace part1 in
      if (name =? "")%string || (value =? "")%string
      then Err ("DNS option name and value cannot be empty: " ++ pairStr)%string
      else parseDNSOptionPairs rest (options ++ [ {| Name := name; Value := value |} ])
    | _ =>
      Err ("invalid DNS option format: " ++ pairStr ++ " (expected name:value)")%string
    end
  end.

Definition parseDNSOptions (optionsStr : string) : result (list DNSOption) :=
  let options := [] in
  let pairs := strings.Split optionsStr "," in
  parseDNSOptionPairs pairs options.

(** The loop of [validateConfig] over the search domains. *)
Fixpoint validateSearchDomains (domains : list string) : error :=
  match domains with
  | [] => None
  | domain :: rest =>
    if (TrimSpace domain =? "")%string
    then Some "search domain cannot be empty"
    else validateSearchDomains rest
  end.

(** The loop of [validateConfig] over the DNS options. *)
Fixpoint validateDNSOptions (options : list DNSOption) : error :=
  match options with
  | [] => None
  | opt :: rest =>
    if (TrimSpace (Name opt) =? "")%string
    then Some "DNS option name cannot be empty"
    else if (TrimSpace (Value opt) =? "")%string
    then Some "DNS option value cannot be empty"
    else validateDNSOptions rest
  end.

Definition validateConfig (config : Config) : error :=
  match validateIPAddress (NodeLocalDNSAddress config) with
  | Some err => Some ("invalid node local DNS address: " ++ err)%string
  | None =>
    match validateIPAddress (ClusterDNSAddress config) with
    | Some err => Some ("invalid cluster DNS address: " ++ err)%string
    | None =>
      if (length (SearchDomains config) =? 0)%nat
      then Some "search domains cannot be empty"
      else
        match validateSearchDomains (SearchDomains config) with
        | Some err => Some err
        | None => validateDNSOptions (DNSOptions config)
        end
    end
  end.

(** [loadFromEnvironment(config)] writes through the pointer: the result is
    the configuration after the call and the error returned. *)
Definition loadFromEnvironment (config : Config) : Config * error :=
  let addr := Getenv EnvNodeLocalDNSAddress in
  if (addr =? "")%string then
    (config,
     Some ("node local DNS address is required but not provided via environment variable "
           ++ EnvNodeLocalDNSAddress)%string)
  else
    match validateIPAddress addr with
    | Some err =>
      (config, Some ("invalid node local DNS address " ++ addr ++ ": " ++ err)%string)
    | None =>
      let config := with_NodeLocalDNSAddress config addr in
      let config :=
        let domains := Getenv EnvSearchDomains in
        if negb (domains =? "")%string then
          let config := with_SearchDomains config (strings.Split domains ",") in
          with_SearchDomains
            config
            (range (fun i domain acc => assign acc i (TrimSpace domain))
                   (SearchDomains config) (SearchDomains config))
        else config in
      let options := Getenv EnvDNSOptions in
      if negb (options =? "")%string then
        match parseDNSOptions options with
        | Err err =>
          (config, Some ("invalid DNS options " ++ options ++ ": " ++ err)%string)
        | Ok dnsOptions => (with_DNSOptions config dnsOptions, None)
        end
      else (config, None)
    end.

Definition LoadConfig (clusterDNSIP : string) : result Config :=
  let config := DefaultConfig in
  match loadFromEnvironment config with
  | (_, Some err) =>
    Err ("failed to load configuration from environment: " ++ err)%string
  | (config, None) =>
    let config := with_ClusterDNSAddress config clusterDNSIP in
    match validateConfig config with
    | Some err => Err ("configuration validation failed: " ++ err)%string
    | None => Ok config
    end
  end.

End ConfigLoader.

(** ** Properties stated about the configuration loader *)

(** A part [validateIPAddress] lets through: a number, as [strconv.Atoi]
    reads it, between 0 and 255. *)
Definition isOctet (part : string) : Prop :=
  exists num, strconv.Atoi part = Ok num /\ (0 <= num <= 255)%Z.

(** The decimal numeral of a natural number. *)
Definition decimal (n : nat) : string :=
  DecimalString.NilZero.string_of_uint (Nat.to_uint n).

(** [a.b.c.d] *)
Definition dotted (a b c d : string) : string :=
  (a ++ "." ++ b ++ "." ++ c ++ "." ++ d)%string.

(** What one comma-separated piece must look like for [parseDNSOptions] to
    turn it into the option [o]. *)
Definition ParsedOption (TrimSpace : string -> string)
           (piece : string) (o : DNSOption) : Prop :=
  exists part0 part1,
    strings.Split (TrimSpace piece) ":" = [part0; part1]
    /\ Name o = TrimSpace part0
    /\ Value o = TrimSpace part1
    /\ Name o <> ""
    /\ Value o <> "".

(** What [validateConfig] asks of a configuration. *)
Definition ValidConfig (TrimSpace : string -> string) (config : Config) : Prop :=
  validateIPAddress (NodeLocalDNSAddress config) = None
  /\ validateIPAddress (ClusterDNSAddress config) = None
  /\ SearchDomains config <> []
  /\ Forall (fun domain => TrimSpace domain <> "") (SearchDomains config)
  /\ Forall (fun o => TrimSpace (Name o) <> "" /\ TrimSpace (Value o) <> "")
            (DNSOptions config).

(** ** Properties stated about the HTTP front *)

(** The request passes every check of [HandleInject] and wraps [request]. *)
Definition TransportValid
           (json_Unmarshal : string -> result admissionv1.AdmissionReview)
           (r : Server.Request) (request : admissionv1.AdmissionRequest) : Prop :=
  Server.Method r = Server.MethodPost
  /\ Server.Header_Get (Server.Header r) "Content-Type" = Server.ContentTypeJSON
  /\ exists body review,
      Server.Body r = Ok body
      /\ json_Unmarshal body = Ok review
      /\ admissionv1.Request review = Some request
      /\ admissionv1.UID request <> "".

(** The review [HandleInject] marshals around a response. *)
Definition reviewOf (response : admissionv1.AdmissionResponse)
  : admissionv1.AdmissionReview :=
  {| admissionv1.Request := None; admissionv1.Response := Some response |}.

(** The world after one call of the engine and one write on a fresh writer. *)
Definition answered (code : Z) (payload : Server.Payload)
           (request : admissionv1.AdmissionRequest) : Server.World :=
  {| Server.writer :=
       {| Server.wHeader := [("Content-Type", Server.ContentTypeJSON)];
          Server.wStatus := Some code;
          Server.wBody := [payload] |};
     Server.decided := [request];
     Server.panicked := false |}.

(** ** Further properties stated about the engine *)

(** A request the engine works on: a Pod, created or updated. *)
Definition inScope (req : admissionv1.AdmissionRequest) : Prop :=
  isPodRequest req = true
  /\ (admissionv1.Operation_ req = admissionv1.Create
      \/ admissionv1.Operation_ req = admissionv1.Update).

(** Two requests with the same identifier and the same raw object. *)
Definition sameObject (req req' : admissionv1.AdmissionRequest) : Prop :=
  admissionv1.UID req = admissionv1.UID req'
  /\ admissionv1.Raw (admissionv1.Object req) = admissionv1.Raw (admissionv1.Object req').

(** The request with another name and namespace. *)
Definition renamed (req : admissionv1.AdmissionRequest) (name ns : string)
  : admissionv1.AdmissionRequest :=
  {| admissionv1.UID := admissionv1.UID req;
     admissionv1.Kind := admissionv1.Kind req;
     admissionv1.Resource := admissionv1.Resource req;
     admissionv1.Name := name;
     admissionv1.Namespace := ns;
     admissionv1.Operation_ := admissionv1.Operation_ req;
     admissionv1.Object := admissionv1.Object req;
     admissionv1.OldObject := admissionv1.OldObject req |}.

(** ** Responses, field by field *)

(** An allow that carries [patch] as a JSON patch. *)
Definition AllowedWithPatch (resp : admissionv1.AdmissionResponse)
           (uid patch : string) : Prop :=
  admissionv1.RespUID resp = uid
  /\ admissionv1.Allowed resp = true
  /\ admissionv1.Result resp = None
  /\ admissionv1.Patch resp = Some patch
  /\ admissionv1.PatchType resp = Some "JSONPatch".

(** A denial with code 400 and [message], without patch. *)
Definition DeniedWith (resp : admissionv1.AdmissionResponse)
           (uid message : string) : Prop :=
  admissionv1.RespUID resp = uid
  /\ admissionv1.Allowed resp = false
  /\ admissionv1.Result resp
     = Some {| metav1.Code := 400; metav1.Message := message |}
  /\ admissionv1.Patch resp = None
  /\ admissionv1.PatchType resp = None.

(** The configured resolver options as the pod carries them. *)
Definition podOptions (options : list DNSOption) : list corev1.PodDNSConfigOption :=
  map (fun o => {| corev1.Name := Name o; corev1.Value := Some (Value o) |}) options.

(** The two operations of the patch-shape property: the policy replaced by
    None, then a DNS config added with the given nameservers and searches
    and the configured options. *)
Definition injectionOps (nameservers searches : list string)
           (options : list DNSOption) : list PatchOperation :=
  [ replacePolicy "None";
    addConfig {| corev1.Nameservers := nameservers;
                 corev1.Searches := searches;
                 corev1.Options := podOptions options |} ].

(** The searches derived for namespace [ns] under cluster.local. *)
Definition clusterLocalSearches (ns : string) : list string :=
  [ (ns ++ ".svc.cluster.local")%string; "svc.cluster.local"; "cluster.local" ].

(** The patch-shape property in the words of the specification, for one
    revision of the engine: a Create request in namespace [ns] for a pod
    with no DNS policy and no DNS config (and no host networking), under
    cluster domain cluster.local, is allowed with the serialization of the
    two operations, the searches being those derived for [ns]. *)
Definition specBarePodPatch
           (engine : (string -> result corev1.Pod) ->
                     (list PatchOperation -> result string) ->
                     Config -> admissionv1.AdmissionRequest ->
                     admissionv1.AdmissionResponse) : Prop :=
  forall (json_Unmarshal : string -> result corev1.Pod)
         (json_Marshal : list PatchOperation -> result string)
         (config : Config) (req : admissionv1.AdmissionRequest)
         (pod : corev1.Pod) (ns patch : string),
    isPodRequest req = true ->
    admissionv1.Operation_ req = admissionv1.Create ->
    admissionv1.Namespace req = ns ->
    json_Unmarshal (slice_contents (admissionv1.Raw (admissionv1.Object req))) = Ok pod ->
    corev1.DNSPolicy_ (corev1.Spec pod) = "" ->
    corev1.DNSConfig (corev1.Spec pod) = None ->
    corev1.HostNetwork (corev1.Spec pod) = false ->
    ClusterDomain config = "cluster.local" ->
    json_Marshal (injectionOps [NodeLocalDNSAddress config; ClusterDNSAddress config]
                               (clusterLocalSearches ns) (DNSOptions config))
    = Ok patch ->
    AllowedWithPatch (engine json_Unmarshal json_Marshal config req)
                     (admissionv1.UID req) patch.

(** The response is an allow that carries, as a JSON patch, the
    serialization of a policy replace followed by at most the re-add of one
    pod's DNS config. *)
Definition Patched_by (json_Marshal : list PatchOperation -> result string)
           (req : admissionv1.AdmissionRequest)
           (resp : admissionv1.AdmissionResponse) : Prop :=
  exists (modified : corev1.Pod) (patch : string),
    json_Marshal (replacePolicy corev1.DNSNone :: configOperations modified) = Ok patch
    /\ AllowedWithPatch resp (admissionv1.UID req) patch.

(** ** A sample environment *)

Module SampleEnv.

Definition isSpace (c : ascii) : bool :=
  let n := nat_of_ascii c in
  ((9 <=? n) && (n <=? 13))%nat || (n =? 32)%nat.

Fixpoint trimLeft (s : list ascii) : list ascii :=
  match s with
  | c :: rest => if isSpace c then trimLeft rest else s
  | [] => []
  end.

(** White space trimming for ASCII text. *)
Definition TrimSpace (s : string) : string :=
  string_of_list_ascii
    (rev (trimLeft (rev (trimLeft (list_ascii_of_string s))))).

(** Only the required address is set. *)
Definition minimal (name : string) : string :=
  if (name =? EnvNodeLocalDNSAddress)%string then "169.254.20.10" else "".

(** Every variable is set. *)
Definition full (name : string) : string :=
  if (name =? EnvNodeLocalDNSAddress)%string then "169.254.20.10"
  else if (name =? EnvSearchDomains)%string then "ns.svc.cluster.local, svc.cluster.local"
  else if (name =? EnvDNSOptions)%string then "ndots:2, timeout:1"
  else "".

(** Nothing is set. *)
Definition unset (name : string) : string := "".

(** The search domains end in a comma. *)
Definition trailingComma (name : string) : string :=
  if (name =? EnvNodeLocalDNSAddress)%string then "169.254.20.10"
  else if (name =? EnvSearchDomains)%string then "svc.cluster.local,"
  else "".

Definition postRequest : Server.Request :=
  {| Server.Method := "POST";
     Server.Header := [("Content-Type", "application/json")];
     Server.Body := Ok "<review of createBare>" |}.

(** A review wrapping a Create whose pod does not parse. *)
Definition decodeReview (body : string) : result admissionv1.AdmissionReview :=
  if (body =? "<review of createUnparsable>")%string
  then Ok {| admissionv1.Request := Some Sample.createUnparsable;
             admissionv1.Response := None |}
  else Sample.decodeReview body.

Definition postUnparsable : Server.Request :=
  {| Server.Method := "POST";
     Server.Header := [("Content-Type", "application/json")];
     Server.Body := Ok "<review of createUnparsable>" |}.

(** On the host network, opted in with ClusterFirstWithHostNet. *)
Definition hostNetOptInPod : corev1.Pod :=
  Sample.pod corev1.DNSClusterFirstWithHostNet None true.

Definition decodePod (raw : string) : result corev1.Pod :=
  if (raw =? "<host-network pod, opted in>")%string then Ok hostNetOptInPod
  else Sample.decodePod raw.

Definition createHostNetOptIn : admissionv1.AdmissionRequest :=
  Sample.request "Pod" "pods" admissionv1.Create
                 (Some "<host-network pod, opted in>") None.

(** An Update that carries the bare pod as its new object. *)
Definition updateBare : admissionv1.AdmissionRequest :=
  Sample.request "Pod" "pods" admissionv1.Update
                 (Some "<bare pod>") (Some "<stored pod>").

End SampleEnv.

(** ** A Create whose object carries no namespace *)

Module SampleCreate.

(** The bare pod as an object without [metadata.namespace]. *)
Definition unplacedPod : corev1.Pod :=
  {| corev1.ObjectMeta := Sample.meta "web" "";
     corev1.Spec := corev1.Spec Sample.barePod |}.

Definition decodePod (raw : string) : result corev1.Pod :=
  if (raw =? "<bare pod, no namespace>")%string then Ok unplacedPod
  else Sample.decodePod raw.

(** The request itself is in namespace ns. *)
Definition createUnplaced : admissionv1.AdmissionRequest :=
  Sample.request "Pod" "pods" admissionv1.Create (Some "<bare pod, no namespace>") None.

End SampleCreate.

(** ** Facts about the slice helpers *)

Lemma copy_make (A : Type) (zero : A) (src : list A) :
  copy (make zero (length src)) src = src.
Proof.
  unfold copy, make.
  rewrite repeat_length, firstn_all, skipn_all2.
  - apply app_nil_r.
  - rewrite repeat_length. lia.
Qed.

Lemma range_from_assign (A B : Type) (f : A -> B) (zero : B) :
  forall (xs : list A) (done : list B),
    range_from (fun i x acc => assign acc i (f x)) (length done) xs
               (done ++ repeat zero (length xs))
    = done ++ map f xs.
Proof.
  induction xs as [|x tl IH]; intros done; simpl.
  - reflexivity.
  - assert (Hstep : assign (done ++ zero :: repeat zero (length tl)) (length done) (f x)
                    = (done ++ [f x]) ++ repeat zero (length tl)).
    { clear IH. induction done as [|d ds IHd]; simpl.
      - reflexivity.
      - now rewrite IHd. }
    rewrite Hstep.
    replace (Datatypes.S (length done)) with (length (done ++ [f x]))
      by (rewrite length_app; simpl; lia).
    rewrite IH, <- app_assoc. reflexivity.
Qed.

Lemma buildPodDNSConfig_eq (d : DNSConfig) :
  buildPodDNSConfig d
  = {| corev1.Nameservers := Nameservers d;
       corev1.Searches := Searches d;
       corev1.Options := map convertOption (Options d) |}.
Proof.
  unfold buildPodDNSConfig; simpl.
  rewrite !copy_make. f_equal.
  unfold range, make.
  apply (range_from_assign convertOption zeroOption (Options d) []).
Qed.

(** ** Facts about the injection policy *)

Lemma injectDNSConfig_cases (p : corev1.Pod) (d : DNSConfig) :
  injectDNSConfig (Some p) d
  = match firstSkip p with
    | Some _ => (Some p, None)
    | None =>
      (Some (corev1.with_DNSConfig (corev1.with_DNSPolicy p corev1.DNSNone)
                                   (Some (buildPodDNSConfig d))),
       None)
    end.
Proof.
  unfold injectDNSConfig, firstSkip, corev1.DeepCopy.
  destruct (negb (isNil (corev1.DNSConfig (corev1.Spec p)))); [reflexivity|].
  destruct (corev1.DNSPolicy_ (corev1.Spec p) =? corev1.DNSNone)%string; [reflexivity|].
  destruct (corev1.HostNetwork (corev1.Spec p)
            && negb (corev1.DNSPolicy_ (corev1.Spec p)
                     =? corev1.DNSClusterFirstWithHostNet)%string);
    reflexivity.
Qed.

Lemma isNil_false_iff (A : Type) (o : option A) : isNil o = false <-> o <> None.
Proof. destruct o; simpl; split; congruence. Qed.

Lemma firstSkip_sound (p : corev1.Pod) (r0 : SkipReason) :
  firstSkip p = Some r0 ->
  holds r0 p /\ forall r, testedBefore r r0 = true -> ~ holds r p.
Proof.
  unfold firstSkip.
  destruct (isNil (corev1.DNSConfig (corev1.Spec p))) eqn:Hc; simpl.
  - destruct (String.eqb_spec (corev1.DNSPolicy_ (corev1.Spec p)) corev1.DNSNone)
      as [Hn|Hn].
    + intros [= <-]. split; [exact Hn|].
      intros [| |]; simpl; try discriminate.
      intros _ H. destruct (corev1.DNSConfig (corev1.Spec p)); [discriminate | now apply H].
    + destruct (corev1.HostNetwork (corev1.Spec p)) eqn:Hh; simpl; [|discriminate].
      destruct (String.eqb_spec (corev1.DNSPolicy_ (corev1.Spec p))
                                corev1.DNSClusterFirstWithHostNet) as [Hw|Hw];
        simpl; [discriminate|].
      intros [= <-]. split; [now split|].
      intros [| |]; simpl; try discriminate; intros _ H.
      * destruct (corev1.DNSConfig (corev1.Spec p)); [discriminate | now apply H].
      * now apply Hn.
  - intros [= <-]. split.
    + simpl. now apply isNil_false_iff.
    + intros [| |]; discriminate.
Qed.

Lemma holds_firstSkip (p : corev1.Pod) (r : SkipReason) :
  holds r p -> exists r0, firstSkip p = Some r0.
Proof.
  unfold firstSkip. intros H.
  destruct (isNil (corev1.DNSConfig (corev1.Spec p))) eqn:Hc; simpl; [|now eexists].
  destruct (String.eqb_spec (corev1.DNSPolicy_ (corev1.Spec p)) corev1.DNSNone)
    as [Hn|Hn]; [now eexists|].
  destruct r; simpl in H.
  - destruct (corev1.DNSConfig (corev1.Spec p)); [discriminate | now elim H].
  - now elim Hn.
  - destruct H as [-> Hw].
    destruct (String.eqb_spec (corev1.DNSPolicy_ (corev1.Spec p))
                              corev1.DNSClusterFirstWithHostNet); [now elim Hw|].
    simpl. now eexists.
Qed.

Lemma firstSkip_after_injection (p : corev1.Pod) (c : corev1.PodDNSConfig) :
  firstSkip (corev1.with_DNSConfig (corev1.with_DNSPolicy p corev1.DNSNone) (Some c))
  = Some HasDNSConfig.
Proof. reflexivity. Qed.

Lemma injectDNSConfig_no_error (pod : option corev1.Pod) (d : DNSConfig) :
  snd (injectDNSConfig pod d) = None.
Proof.
  destruct pod as [p|]; [|reflexivity].
  rewrite injectDNSConfig_cases. now destruct (firstSkip p).
Qed.

Lemma injected_cases (p : corev1.Pod) (d : DNSConfig) :
  injected p d
  = match firstSkip p with
    | Some _ => p
    | None => corev1.with_DNSConfig (corev1.with_DNSPolicy p corev1.DNSNone)
                                    (Some (buildPodDNSConfig d))
    end.
Proof.
  unfold injected, corev1.DeepCopy. rewrite injectDNSConfig_cases.
  now destruct (firstSkip p).
Qed.

(** X15: when no skip condition matches, the policy becomes None and the
    DNS config holds the spec's nameservers, searches and options, in order,
    each option value behind a non-nil pointer; the metadata, the host
    network flag and every other field of the pod stay as they were. *)
Lemma injectDNSConfig_injects (p : corev1.Pod) (d : DNSConfig) :
  firstSkip p = None ->
  injectDNSConfig (Some p) d
  = (Some {| corev1.ObjectMeta := corev1.ObjectMeta p;
             corev1.Spec :=
               {| corev1.DNSPolicy_ := corev1.DNSNone;
                  corev1.DNSConfig :=
                    Some {| corev1.Nameservers := Nameservers d;
                            corev1.Searches := Searches d;
                            corev1.Options := map convertOption (Options d) |};
                  corev1.HostNetwork := corev1.HostNetwork (corev1.Spec p);
                  corev1.OtherSpec := corev1.OtherSpec (corev1.Spec p) |} |},
     None).
Proof.
  intros H. rewrite injectDNSConfig_cases, H, buildPodDNSConfig_eq. reflexivity.
Qed.

(** C6: when a skip condition holds for a pod (it already has a DNS config,
    or its policy is None, or it is on the host network without the
    ClusterFirstWithHostNet policy), [injectDNSConfig] returns without error
    and leaves every field of the pod as it was; the condition that decides
    is the first one in that order that holds. *)
Theorem injectDNSConfig_skip_is_noop
        (p : corev1.Pod) (d : DNSConfig) (r : SkipReason) :
  holds r p ->
  injectDNSConfig (Some p) d = (Some p, None)
  /\ exists r0, firstSkip p = Some r0
                /\ holds r0 p
                /\ forall r', testedBefore r' r0 = true -> ~ holds r' p.
Proof.
  intros H. destruct (holds_firstSkip p r H) as [r0 Hr0]. split.
  - rewrite injectDNSConfig_cases, Hr0. reflexivity.
  - exists r0. split; [exact Hr0|]. now apply firstSkip_sound.
Qed.

Lemma injectDNSConfig_skip_is_noop_witness :
  holds HostNetworkWithoutOptIn Sample.hostNetPod
  /\ injectDNSConfig (Some Sample.hostNetPod)
                     (Part001.createDNSConfig Sample.config)
     = (Some Sample.hostNetPod, None).
Proof.
  assert (H : holds HostNetworkWithoutOptIn Sample.hostNetPod).
  { simpl. split; [reflexivity | discriminate]. }
  split; [exact H|].
  exact (proj1 (injectDNSConfig_skip_is_noop Sample.hostNetPod
                  (Part001.createDNSConfig Sample.config)
                  HostNetworkWithoutOptIn H)).
Defined.

(** C7: running [injectDNSConfig] a second time on the working copy the
    first run left gives the state and the error of the first run: after an
    injection the DNS config is non-nil, after a skip nothing changed. *)
Theorem injectDNSConfig_idempotent (pod : option corev1.Pod) (d : DNSConfig) :
  injectDNSConfig (fst (injectDNSConfig pod d)) d = injectDNSConfig pod d.
Proof.
  destruct pod as [p|]; [|reflexivity].
  rewrite (injectDNSConfig_cases p).
  destruct (firstSkip p) as [r|] eqn:Hr; cbn [fst].
  - rewrite injectDNSConfig_cases, Hr. reflexivity.
  - rewrite injectDNSConfig_cases, firstSkip_after_injection. reflexivity.
Qed.

(** ** Facts about the patch codec *)

Lemma patchOperations_eq (original modified : corev1.Pod) :
  patchOperations original modified
  = replacePolicy corev1.DNSNone :: configOperations modified.
Proof.
  unfold patchOperations, configOperations, replacePolicy, addConfig.
  now destruct (corev1.DNSConfig (corev1.Spec modified)).
Qed.

Lemma optsOut_firstSkip (p : corev1.Pod) :
  optsOut p -> exists r, firstSkip p = Some r.
Proof.
  intros [H|[H|H]].
  - now apply (holds_firstSkip p PolicyIsNone).
  - now apply (holds_firstSkip p HostNetworkWithoutOptIn).
  - now apply (holds_firstSkip p HasDNSConfig).
Qed.

Lemma injected_optsOut (p : corev1.Pod) (d : DNSConfig) :
  optsOut p -> injected p d = p.
Proof.
  intros H. destruct (optsOut_firstSkip H) as [r Hr].
  now rewrite injected_cases, Hr.
Qed.

(** C2, as the specification words it, fails: a pod that opted out with
    policy None and brings its own DNS config gets a second operation, the
    re-add of that config. *)
Lemma specPatchShape_fails : ~ specPatchShape.
Proof.
  intros [_ H].
  specialize (H (Part001.createDNSConfig Sample.config) Sample.selfManagedPod).
  assert (Hout : optsOut Sample.selfManagedPod) by (left; reflexivity).
  specialize (H Hout).
  vm_compute in H.
  discriminate H.
Qed.

(** C2, amended: every patch is a replace operation at the DNS-policy path
    followed by an add operation at the DNS-config path carrying the
    modified pod's DNS config when that config is non-nil, and by nothing
    otherwise.  For a pod that opts out, injection leaves the pod as it was,
    so beyond the replace operation the patch holds only the re-add of the
    pod's own DNS config, if it has one; when the pod's policy is None the
    replace operation carries the original policy. *)
Theorem patch_shape (d : DNSConfig) (original modified : corev1.Pod) :
  (exists v,
      patchOperations original modified = replacePolicy v :: configOperations modified)
  /\ (optsOut original ->
      injected original d = original
      /\ exists v,
          patchOperations original (injected original d)
          = replacePolicy v :: configOperations original
          /\ (corev1.DNSConfig (corev1.Spec original) = None ->
              patchOperations original (injected original d) = [replacePolicy v])
          /\ (corev1.DNSPolicy_ (corev1.Spec original) = corev1.DNSNone ->
              v = corev1.DNSPolicy_ (corev1.Spec original))).
Proof.
  split.
  - exists corev1.DNSNone. apply patchOperations_eq.
  - intros Hout. rewrite (injected_optsOut d Hout). split; [reflexivity|].
    exists corev1.DNSNone. rewrite patchOperations_eq. repeat split.
    + intros Hc. unfold configOperations. now rewrite Hc.
    + intros Hp. now rewrite Hp.
Qed.

Lemma patch_shape_witness :
  optsOut Sample.hostNetPod
  /\ exists v,
      patchOperations Sample.hostNetPod
                      (injected Sample.hostNetPod (Part001.createDNSConfig Sample.config))
      = [replacePolicy v].
Proof.
  assert (Hout : optsOut Sample.hostNetPod).
  { right; left. split; [reflexivity | discriminate]. }
  split; [exact Hout|].
  destruct (proj2 (patch_shape (Part001.createDNSConfig Sample.config)
                               Sample.hostNetPod Sample.hostNetPod) Hout)
    as [_ [v [_ [Hnil _]]]].
  exists v. apply Hnil. reflexivity.
Defined.

(** ** Facts about the decision engine *)

Lemma scope_guard (req : admissionv1.AdmissionRequest) :
  negb (metav1.Kind (admissionv1.Kind req) =? "Pod")%string
  || negb (metav1.Resource (admissionv1.Resource req) =? "pods")%string
  = negb (isPodRequest req).
Proof. unfold isPodRequest. now rewrite negb_andb. Qed.

Lemma pointee_injected (p : corev1.Pod) (d : DNSConfig) :
  injectDNSConfig (Some (corev1.DeepCopy p)) d = (Some (injected p d), None).
Proof.
  unfold injected, corev1.DeepCopy.
  rewrite injectDNSConfig_cases. now destruct (firstSkip p).
Qed.

Section EngineFacts.

Variable json_Unmarshal : string -> result corev1.Pod.
Variable json_Marshal : list PatchOperation -> result string.
Variable config : Config.

Local Abbreviation process000 :=
  (Part000.processAdmissionRequest json_Unmarshal json_Marshal config).
Local Abbreviation process001 :=
  (Part001.processAdmissionRequest json_Unmarshal json_Marshal config).
Local Abbreviation object req :=
  (slice_contents (admissionv1.Raw (admissionv1.Object req))).
Local Abbreviation oldObject req :=
  (slice_contents (admissionv1.Raw (admissionv1.OldObject req))).

(** *** Revision part_000, branch by branch *)

Lemma process000_not_pod (req : admissionv1.AdmissionRequest) :
  isPodRequest req = false -> process000 req = baseResponse req.
Proof.
  intros H. unfold Part000.processAdmissionRequest.
  now rewrite scope_guard, H.
Qed.

Lemma process000_unparsable (req : admissionv1.AdmissionRequest) (err : string) :
  isPodRequest req = true ->
  json_Unmarshal (object req) = Err err ->
  process000 req
  = createErrorResponse (admissionv1.UID req) ("Failed to parse pod: " ++ err)%string.
Proof.
  intros H Hu. unfold Part000.processAdmissionRequest.
  now rewrite scope_guard, H, Hu.
Qed.

Lemma process000_create (req : admissionv1.AdmissionRequest) (pod : corev1.Pod) :
  isPodRequest req = true ->
  json_Unmarshal (object req) = Ok pod ->
  admissionv1.Operation_ req = admissionv1.Create ->
  process000 req
  = respondWithPatch json_Marshal req (baseResponse req) pod
                             (injected pod (derivedDNSConfig config pod)).
Proof.
  intros H Hu Hop. unfold Part000.processAdmissionRequest.
  rewrite scope_guard, H, Hu, Hop. cbn [negb String.eqb].
  change (admissionv1.Create =? admissionv1.Create)%string with true. cbv iota.
  fold (derivedDNSConfig config pod).
  now rewrite pointee_injected.
Qed.

Lemma process000_update (req : admissionv1.AdmissionRequest) (pod oldPod : corev1.Pod) :
  isPodRequest req = true ->
  json_Unmarshal (object req) = Ok pod ->
  admissionv1.Operation_ req = admissionv1.Update ->
  json_Unmarshal (oldObject req) = Ok oldPod ->
  process000 req
  = respondWithPatch json_Marshal req (baseResponse req) pod
                             (Part000.updateWorkingCopy pod oldPod).
Proof.
  intros H Hu Hop Hold. unfold Part000.processAdmissionRequest.
  rewrite scope_guard, H, Hu, Hop. cbn [negb].
  change (admissionv1.Update =? admissionv1.Create)%string with false.
  change (admissionv1.Update =? admissionv1.Update)%string with true. cbv iota.
  now rewrite Hold.
Qed.

Lemma process000_update_unparsable
      (req : admissionv1.AdmissionRequest) (pod : corev1.Pod) (err : string) :
  isPodRequest req = true ->
  json_Unmarshal (object req) = Ok pod ->
  admissionv1.Operation_ req = admissionv1.Update ->
  json_Unmarshal (oldObject req) = Err err ->
  process000 req
  = createErrorResponse (admissionv1.UID req) ("Failed to parse pod: " ++ err)%string.
Proof.
  intros H Hu Hop Hold. unfold Part000.processAdmissionRequest.
  rewrite scope_guard, H, Hu, Hop. cbn [negb].
  change (admissionv1.Update =? admissionv1.Create)%string with false.
  change (admissionv1.Update =? admissionv1.Update)%string with true. cbv iota.
  now rewrite Hold.
Qed.

Lemma process000_other (req : admissionv1.AdmissionRequest) (pod : corev1.Pod) :
  isPodRequest req = true ->
  json_Unmarshal (object req) = Ok pod ->
  admissionv1.Operation_ req <> admissionv1.Create ->
  admissionv1.Operation_ req <> admissionv1.Update ->
  process000 req = baseResponse req.
Proof.
  intros H Hu Hc Hup. unfold Part000.processAdmissionRequest.
  rewrite scope_guard, H, Hu. cbn [negb].
  apply String.eqb_neq in Hc, Hup. now rewrite Hc, Hup.
Qed.

Lemma respondWithPatch_cases
      (req : admissionv1.AdmissionRequest) (pod podCopy : corev1.Pod) :
  respondWithPatch json_Marshal req (baseResponse req) pod podCopy
  = match json_Marshal (patchOperations pod podCopy) with
    | Ok patch => withPatch (baseResponse req) patch
    | Err err =>
      createErrorResponse
        (admissionv1.UID req)
        ("Failed to generate patch: failed to marshal JSON patch: " ++ err)%string
    end.
Proof.
  unfold respondWithPatch, generateJSONPatch.
  now destruct (json_Marshal (patchOperations pod podCopy)).
Qed.

Lemma respondWithPatch_outcome
      (causedBy : DenialCause -> string -> Prop)
      (req : admissionv1.AdmissionRequest) (pod podCopy : corev1.Pod) :
  (forall ops err,
      json_Marshal ops = Err err ->
      causedBy PatchSerialization ("failed to marshal JSON patch: " ++ err)%string) ->
  Outcome causedBy req
          (respondWithPatch json_Marshal req (baseResponse req) pod podCopy).
Proof.
  intros Hc. rewrite respondWithPatch_cases.
  destruct (json_Marshal (patchOperations pod podCopy)) as [patch|err] eqn:Hm.
  - now apply Patched with patch.
  - apply Denied with PatchSerialization ("failed to marshal JSON patch: " ++ err)%string.
    + now apply Hc with (patchOperations pod podCopy).
    + reflexivity.
Qed.

Lemma process000_outcome (req : admissionv1.AdmissionRequest) :
  Outcome (causedBy000 json_Unmarshal json_Marshal req) req (process000 req).
Proof.
  destruct (isPodRequest req) eqn:Hpod.
  2:{ apply Untouched. now apply process000_not_pod. }
  destruct (json_Unmarshal (object req)) as [pod|err] eqn:Hu.
  2:{ apply Denied with ObjectParse err; [exact Hu|].
      now apply process000_unparsable. }
  destruct (String.eqb_spec (admissionv1.Operation_ req) admissionv1.Create) as [Hc|Hc].
  { rewrite (process000_create req Hpod Hu Hc).
    apply respondWithPatch_outcome. intros ops err Hm. now exists ops, err. }
  destruct (String.eqb_spec (admissionv1.Operation_ req) admissionv1.Update) as [Hup|Hup].
  2:{ apply Untouched. now apply process000_other with pod. }
  destruct (json_Unmarshal (oldObject req)) as [oldPod|err] eqn:Hold.
  - rewrite (process000_update req Hpod Hu Hup Hold).
    apply respondWithPatch_outcome. intros ops err Hm. now exists ops, err.
  - apply Denied with PriorObjectParse err; [now split|].
    now apply process000_update_unparsable with pod.
Qed.

(** *** Revision part_001, branch by branch *)

Lemma process001_not_pod (req : admissionv1.AdmissionRequest) :
  isPodRequest req = false -> process001 req = baseResponse req.
Proof.
  intros H. unfold Part001.processAdmissionRequest.
  now rewrite scope_guard, H.
Qed.

Lemma process001_other (req : admissionv1.AdmissionRequest) :
  admissionv1.Operation_ req <> admissionv1.Create ->
  admissionv1.Operation_ req <> admissionv1.Update ->
  process001 req = baseResponse req.
Proof.
  intros Hc Hup. unfold Part001.processAdmissionRequest.
  apply String.eqb_neq in Hc, Hup. rewrite Hc, Hup. cbn [negb andb].
  now destruct (_ || _).
Qed.

Lemma process001_unparsable (req : admissionv1.AdmissionRequest) (msg : string) :
  isPodRequest req = true ->
  admissionv1.Operation_ req = admissionv1.Create
  \/ admissionv1.Operation_ req = admissionv1.Update ->
  Part001.parsePodFromRequest json_Unmarshal req = Err msg ->
  process001 req
  = createErrorResponse (admissionv1.UID req) ("Failed to parse pod: " ++ msg)%string.
Proof.
  intros H Hop Hp. unfold Part001.processAdmissionRequest.
  rewrite scope_guard, H, Hp. cbn [negb].
  now destruct Hop as [-> | ->].
Qed.

Lemma process001_parsed (req : admissionv1.AdmissionRequest) (pod : corev1.Pod) :
  isPodRequest req = true ->
  admissionv1.Operation_ req = admissionv1.Create
  \/ admissionv1.Operation_ req = admissionv1.Update ->
  Part001.parsePodFromRequest json_Unmarshal req = Ok pod ->
  process001 req
  = respondWithPatch json_Marshal req (baseResponse req) pod
                             (injected pod (Part001.createDNSConfig config)).
Proof.
  intros H Hop Hp. unfold Part001.processAdmissionRequest.
  rewrite scope_guard, H, Hp. cbn [negb].
  rewrite pointee_injected.
  now destruct Hop as [-> | ->].
Qed.

Lemma process001_outcome (req : admissionv1.AdmissionRequest) :
  Outcome (causedBy001 json_Unmarshal json_Marshal req) req (process001 req).
Proof.
  destruct (isPodRequest req) eqn:Hpod.
  2:{ apply Untouched. now apply process001_not_pod. }
  assert (Hop : (admissionv1.Operation_ req <> admissionv1.Create
                 /\ admissionv1.Operation_ req <> admissionv1.Update)
                \/ (admissionv1.Operation_ req = admissionv1.Create
                    \/ admissionv1.Operation_ req = admissionv1.Update)).
  { destruct (String.eqb_spec (admissionv1.Operation_ req) admissionv1.Create);
      [now right; left|].
    destruct (String.eqb_spec (admissionv1.Operation_ req) admissionv1.Update);
      [now right; right | now left]. }
  destruct Hop as [[Hc Hup]|Hop].
  { apply Untouched. now apply process001_other. }
  destruct (Part001.parsePodFromRequest json_Unmarshal req) as [pod|msg] eqn:Hp.
  - rewrite (process001_parsed req Hpod Hop Hp).
    apply respondWithPatch_outcome. intros ops err Hm. now exists ops, err.
  - apply Denied with ObjectParse msg; [exact Hp|].
    now apply process001_unparsable.
Qed.

(** *** What every outcome satisfies *)

Lemma outcome_echoes_uid
      (causedBy : DenialCause -> string -> Prop)
      (req : admissionv1.AdmissionRequest) (resp : admissionv1.AdmissionResponse) :
  Outcome causedBy req resp -> admissionv1.RespUID resp = admissionv1.UID req.
Proof. now intros [-> | patch -> | c detail _ ->]. Qed.

Lemma outcome_invariant
      (causedBy : DenialCause -> string -> Prop)
      (req : admissionv1.AdmissionRequest) (resp : admissionv1.AdmissionResponse) :
  Outcome causedBy req resp -> responseInvariant resp.
Proof.
  intros [-> | patch -> | c detail _ ->]; split; simpl; intros H;
    try discriminate; try (now elim H); auto.
Qed.

Lemma denialMessage_not_injection (c : DenialCause) (detail : string) :
  String.prefix "Failed to inject DNS configuration" (denialMessage c detail) = false.
Proof. now destruct c. Qed.

Lemma outcome_not_injection_failure
      (causedBy : DenialCause -> string -> Prop)
      (req : admissionv1.AdmissionRequest) (resp : admissionv1.AdmissionResponse) :
  Outcome causedBy req resp -> reportsInjectionFailure resp = false.
Proof.
  intros [-> | patch -> | c detail _ ->]; try reflexivity.
  unfold reportsInjectionFailure, createErrorResponse. cbn [admissionv1.Result metav1.Message].
  apply denialMessage_not_injection.
Qed.

Lemma outcome_denied
      (causedBy : DenialCause -> string -> Prop)
      (req : admissionv1.AdmissionRequest) (resp : admissionv1.AdmissionResponse) :
  Outcome causedBy req resp ->
  admissionv1.Allowed resp = false ->
  exists c detail,
    causedBy c detail
    /\ resp = createErrorResponse (admissionv1.UID req) (denialMessage c detail).
Proof.
  intros [-> | patch -> | c detail Hc ->]; simpl; try discriminate.
  intros _. now exists c, detail.
Qed.

End EngineFacts.

(** ** The responses, field by field *)

Lemma createErrorResponse_denied (uid message : string) :
  DeniedWith (createErrorResponse uid message) uid message.
Proof. now repeat split. Qed.

Lemma withPatch_allowed (req : admissionv1.AdmissionRequest) (patch : string) :
  AllowedWithPatch (withPatch (baseResponse req) patch) (admissionv1.UID req) patch.
Proof. now repeat split. Qed.

Lemma respondWithPatch_fields
      (json_Marshal : list PatchOperation -> result string)
      (req : admissionv1.AdmissionRequest) (pod podCopy : corev1.Pod) :
  (forall patch,
      json_Marshal (patchOperations pod podCopy) = Ok patch ->
      AllowedWithPatch (respondWithPatch json_Marshal req (baseResponse req) pod podCopy)
                       (admissionv1.UID req) patch)
  /\ (forall err,
         json_Marshal (patchOperations pod podCopy) = Err err ->
         DeniedWith (respondWithPatch json_Marshal req (baseResponse req) pod podCopy)
                    (admissionv1.UID req)
                    ("Failed to generate patch: failed to marshal JSON patch: " ++ err)%string).
Proof.
  rewrite respondWithPatch_cases. split.
  - intros patch ->. apply withPatch_allowed.
  - intros err ->. apply createErrorResponse_denied.
Qed.

Lemma podOptions_eq (options : list DNSOption) :
  map convertOption options = podOptions options.
Proof. reflexivity. Qed.

Lemma firstSkip_same_spec (pod pod' : corev1.Pod) :
  corev1.Spec pod' = corev1.Spec pod -> firstSkip pod' = firstSkip pod.
Proof. intros H. unfold firstSkip. now rewrite H. Qed.

Lemma parsePodFromRequest_ok
      (json_Unmarshal : string -> result corev1.Pod)
      (req : admissionv1.AdmissionRequest) (pod : corev1.Pod) :
  admissionv1.Raw (admissionv1.Object req) <> None ->
  json_Unmarshal (slice_contents (admissionv1.Raw (admissionv1.Object req))) = Ok pod ->
  exists pod',
    Part001.parsePodFromRequest json_Unmarshal req = Ok pod'
    /\ corev1.Spec pod' = corev1.Spec pod.
Proof.
  unfold Part001.parsePodFromRequest.
  destruct (admissionv1.Raw (admissionv1.Object req)) as [raw|]; [|now intros H].
  intros _ Hu. cbn [slice_contents] in Hu. rewrite Hu.
  destruct (_ && _); eexists; split; reflexivity.
Qed.

(** ** The engine against its specification *)

Section EngineClaims.

Variable json_Unmarshal : string -> result corev1.Pod.
Variable json_Marshal : list PatchOperation -> result string.
Variable config : Config.

Local Abbreviation process000 :=
  (Part000.processAdmissionRequest json_Unmarshal json_Marshal config).
Local Abbreviation process001 :=
  (Part001.processAdmissionRequest json_Unmarshal json_Marshal config).
Local Abbreviation object req :=
  (slice_contents (admissionv1.Raw (admissionv1.Object req))).
Local Abbreviation oldObject req :=
  (slice_contents (admissionv1.Raw (admissionv1.OldObject req))).

(** C1, on the code: on an Update of a Pod whose new and prior objects both
    deserialize, the part_000 engine gives the working copy the prior
    object's DNS policy and DNS config, and the patch it emits re-adds the
    prior DNS config when there is one; but the policy the patch writes is
    the constant None whatever the prior object's policy was. *)
Theorem update_patch_policy_is_constant
        (req : admissionv1.AdmissionRequest) (pod oldPod : corev1.Pod) :
  isPodRequest req = true ->
  admissionv1.Operation_ req = admissionv1.Update ->
  json_Unmarshal (object req) = Ok pod ->
  json_Unmarshal (oldObject req) = Ok oldPod ->
  let workingCopy := Part000.updateWorkingCopy pod oldPod in
  corev1.DNSPolicy_ (corev1.Spec workingCopy) = corev1.DNSPolicy_ (corev1.Spec oldPod)
  /\ corev1.DNSConfig (corev1.Spec workingCopy) = corev1.DNSConfig (corev1.Spec oldPod)
  /\ process000 req
     = respondWithPatch json_Marshal req (baseResponse req) pod workingCopy
  /\ patchOperations pod workingCopy
     = replacePolicy corev1.DNSNone :: configOperations oldPod.
Proof.
  intros Hpod Hop Hu Hold workingCopy. repeat split.
  - now apply process000_update.
  - now rewrite patchOperations_eq.
Qed.

(** The same request under part_001: the searches are the configured
    static list, whatever the namespace, and the cluster DNS address is
    listed only when it is set. *)
Lemma create_bare_pod_patch_001
      (req : admissionv1.AdmissionRequest) (pod : corev1.Pod) :
  isPodRequest req = true ->
  admissionv1.Operation_ req = admissionv1.Create ->
  Part001.parsePodFromRequest json_Unmarshal req = Ok pod ->
  firstSkip pod = None ->
  process001 req
  = respondWithPatch
      json_Marshal req (baseResponse req) pod
      (corev1.with_DNSConfig
         (corev1.with_DNSPolicy pod corev1.DNSNone)
         (Some {| corev1.Nameservers :=
                    NodeLocalDNSAddress config
                    :: (if (ClusterDNSAddress config =? "")%string
                        then []
                        else [ClusterDNSAddress config]);
                  corev1.Searches := SearchDomains config;
                  corev1.Options := map convertOption (DNSOptions config) |})).
Proof.
  intros Hpod Hop Hp Hskip.
  rewrite (process001_parsed json_Unmarshal json_Marshal config req Hpod
                             (or_introl Hop) Hp).
  rewrite injected_cases, Hskip, buildPodDNSConfig_eq.
  unfold Part001.createDNSConfig. cbn [Nameservers Searches Options].
  now destruct (ClusterDNSAddress config =? "")%string.
Qed.

(** C3, amended: a Create request for a pod with no DNS policy, no DNS
    config and no host networking is allowed, by either revision, with a
    JSON patch that is the serialization of exactly two operations, the DNS
    policy replaced by None and then a DNS config added with the configured
    resolver options.  Under part_000, with cluster domain cluster.local and
    [ns] the namespace the pod object carries, the nameservers are
    [nodeLocalAddr, clusterDNSAddr] and the searches ns.svc.cluster.local,
    svc.cluster.local, cluster.local (a patch that does not serialize is a
    denial with code 400).  Under part_001 the searches are the configured
    static list whatever the namespace, and the cluster DNS address is
    listed only when it is set. *)
Theorem create_bare_pod_patch
        (req : admissionv1.AdmissionRequest) (pod : corev1.Pod) (ns : string) :
  isPodRequest req = true ->
  admissionv1.Operation_ req = admissionv1.Create ->
  json_Unmarshal (object req) = Ok pod ->
  corev1.Namespace_of pod = ns ->
  corev1.DNSPolicy_ (corev1.Spec pod) = "" ->
  corev1.DNSConfig (corev1.Spec pod) = None ->
  corev1.HostNetwork (corev1.Spec pod) = false ->
  ClusterDomain config = "cluster.local" ->
  let ops000 :=
    injectionOps [NodeLocalDNSAddress config; ClusterDNSAddress config]
                 (clusterLocalSearches ns) (DNSOptions config) in
  let ops001 :=
    injectionOps (NodeLocalDNSAddress config
                  :: (if (ClusterDNSAddress config =? "")%string
                      then []
                      else [ClusterDNSAddress config]))
                 (SearchDomains config) (DNSOptions config) in
  (forall patch,
      json_Marshal ops000 = Ok patch ->
      AllowedWithPatch (process000 req) (admissionv1.UID req) patch)
  /\ (forall err,
         json_Marshal ops000 = Err err ->
         DeniedWith (process000 req) (admissionv1.UID req)
                    ("Failed to generate patch: failed to marshal JSON patch: " ++ err)%string)
  /\ (admissionv1.Raw (admissionv1.Object req) <> None ->
      forall patch,
        json_Marshal ops001 = Ok patch ->
        AllowedWithPatch (process001 req) (admissionv1.UID req) patch).
Proof.
  intros Hpod Hop Hu Hns Hpol Hcfg Hhost Hdom ops000 ops001.
  assert (Hskip : firstSkip pod = None).
  { unfold firstSkip. now rewrite Hcfg, Hpol, Hhost. }
  assert (H000 : patchOperations pod (injected pod (derivedDNSConfig config pod)) = ops000).
  { rewrite patchOperations_eq, injected_cases, Hskip. unfold configOperations.
    cbn [corev1.with_DNSConfig corev1.Spec corev1.DNSConfig].
    rewrite buildPodDNSConfig_eq. unfold derivedDNSConfig.
    cbn [Nameservers Searches Options]. rewrite Hns, Hdom, podOptions_eq.
    reflexivity. }
  rewrite (process000_create json_Unmarshal json_Marshal config req Hpod Hu Hop).
  pose proof (respondWithPatch_fields
                json_Marshal req pod (injected pod (derivedDNSConfig config pod)))
    as [Hok Herr].
  rewrite H000 in Hok, Herr.
  split; [exact Hok|]. split; [exact Herr|].
  intros Hraw patch Hm.
  destruct (parsePodFromRequest_ok json_Unmarshal req Hraw Hu) as (pod' & Hp & Hspec).
  rewrite (create_bare_pod_patch_001 req Hpod Hop Hp)
    by (now rewrite (firstSkip_same_spec pod pod' Hspec)).
  apply respondWithPatch_fields.
  rewrite patchOperations_eq. unfold configOperations.
  cbn [corev1.with_DNSConfig corev1.Spec corev1.DNSConfig].
  rewrite podOptions_eq. exact Hm.
Qed.

(** C4, on the code: the part_000 engine unmarshals the raw object before
    it looks at the operation, so a Pod request that is neither a Create
    nor an Update and whose object does not deserialize is denied with
    code 400 instead of being allowed untouched. *)
Theorem process000_parses_before_operation
        (req : admissionv1.AdmissionRequest) (err : string) :
  isPodRequest req = true ->
  admissionv1.Operation_ req <> admissionv1.Create ->
  admissionv1.Operation_ req <> admissionv1.Update ->
  json_Unmarshal (object req) = Err err ->
  process000 req
  = createErrorResponse (admissionv1.UID req) ("Failed to parse pod: " ++ err)%string
  /\ admissionv1.Allowed (process000 req) = false.
Proof.
  intros Hpod _ _ Hu.
  rewrite (process000_unparsable json_Unmarshal json_Marshal config req Hpod Hu).
  now split.
Qed.

(** Scope purity where it does hold: the part_001 engine allows, without a
    patch, every request that is not for a Pod or is neither a Create nor
    an Update, whatever the decoder would say of the raw object; the
    part_000 engine does so for the requests that are not for a Pod. *)
Lemma out_of_scope_untouched (req : admissionv1.AdmissionRequest) :
  (isPodRequest req = false ->
   process000 req = baseResponse req /\ process001 req = baseResponse req)
  /\ (admissionv1.Operation_ req <> admissionv1.Create ->
      admissionv1.Operation_ req <> admissionv1.Update ->
      process001 req = baseResponse req).
Proof.
  split.
  - intros H. split; [now apply process000_not_pod | now apply process001_not_pod].
  - now apply process001_other.
Qed.

Lemma process001_denied_in_scope (req : admissionv1.AdmissionRequest) :
  admissionv1.Allowed (process001 req) = false -> inScope req.
Proof.
  intros H. destruct (isPodRequest req) eqn:Hpod.
  2:{ rewrite (process001_not_pod json_Unmarshal json_Marshal config req Hpod) in H.
      discriminate. }
  split; [exact Hpod|].
  destruct (String.eqb_spec (admissionv1.Operation_ req) admissionv1.Create) as [Hc|Hc];
    [now left|].
  destruct (String.eqb_spec (admissionv1.Operation_ req) admissionv1.Update) as [Hu|Hu];
    [now right|].
  rewrite (process001_other json_Unmarshal json_Marshal config req Hc Hu) in H.
  discriminate.
Qed.

Lemma process000_denied_scope (req : admissionv1.AdmissionRequest) :
  admissionv1.Allowed (process000 req) = false ->
  isPodRequest req = true
  /\ ((exists err, json_Unmarshal (object req) = Err err) \/ inScope req).
Proof.
  intros H. destruct (isPodRequest req) eqn:Hpod.
  2:{ rewrite (process000_not_pod json_Unmarshal json_Marshal config req Hpod) in H.
      discriminate. }
  split; [reflexivity|].
  destruct (json_Unmarshal (object req)) as [pod|err] eqn:Hu; [|left; now exists err].
  right. split; [exact Hpod|].
  destruct (String.eqb_spec (admissionv1.Operation_ req) admissionv1.Create) as [Hc|Hc];
    [now left|].
  destruct (String.eqb_spec (admissionv1.Operation_ req) admissionv1.Update) as [Hup|Hup];
    [now right|].
  rewrite (process000_other json_Unmarshal json_Marshal config req Hpod Hu Hc Hup) in H.
  discriminate.
Qed.

(** C5, on the code: a Pod Create or Update request whose raw object does
    not deserialize is denied by both revisions, with allowed false, code
    400, no patch and a message that names the parse failure; and in
    part_001 every denial is such a response to an in-scope request whose
    object does not parse or whose patch does not serialize.  In part_000
    every denial has that shape too and comes from the object, the prior
    object or the patch, but the object is unmarshalled before the
    operation is looked at: a Pod request that is neither a Create nor an
    Update and whose object does not deserialize is denied as well, a hard
    failure outside the ones the claim lists. *)
Theorem parse_failure_is_denied (req : admissionv1.AdmissionRequest) :
  (forall err,
      inScope req ->
      json_Unmarshal (object req) = Err err ->
      DeniedWith (process000 req) (admissionv1.UID req)
                 ("Failed to parse pod: " ++ err)%string
      /\ exists msg,
          Part001.parsePodFromRequest json_Unmarshal req = Err msg
          /\ DeniedWith (process001 req) (admissionv1.UID req)
                        ("Failed to parse pod: " ++ msg)%string)
  /\ (admissionv1.Allowed (process001 req) = false ->
      inScope req
      /\ exists c detail,
          causedBy001 json_Unmarshal json_Marshal req c detail
          /\ DeniedWith (process001 req) (admissionv1.UID req) (denialMessage c detail))
  /\ (admissionv1.Allowed (process000 req) = false ->
      isPodRequest req = true
      /\ exists c detail,
          causedBy000 json_Unmarshal json_Marshal req c detail
          /\ (c = ObjectParse \/ inScope req)
          /\ DeniedWith (process000 req) (admissionv1.UID req) (denialMessage c detail))
  /\ (forall err,
         isPodRequest req = true ->
         admissionv1.Operation_ req <> admissionv1.Create ->
         admissionv1.Operation_ req <> admissionv1.Update ->
         json_Unmarshal (object req) = Err err ->
         DeniedWith (process000 req) (admissionv1.UID req)
                    ("Failed to parse pod: " ++ err)%string
         /\ ~ inScope req).
Proof.
  split; [|split; [|split]].
  - intros err [Hpod Hop] Hu. split.
    + rewrite (process000_unparsable json_Unmarshal json_Marshal config req Hpod Hu).
      apply createErrorResponse_denied.
    + assert (Hp : exists msg, Part001.parsePodFromRequest json_Unmarshal req = Err msg).
      { unfold Part001.parsePodFromRequest.
        destruct (admissionv1.Raw (admissionv1.Object req)) as [raw|] eqn:Hraw;
          [|now eexists].
        cbn [slice_contents] in Hu. rewrite Hu. now eexists. }
      destruct Hp as [msg Hp]. exists msg. split; [exact Hp|].
      rewrite (process001_unparsable json_Unmarshal json_Marshal config req Hpod Hop Hp).
      apply createErrorResponse_denied.
  - intros H. split; [now apply process001_denied_in_scope|].
    destruct (outcome_denied (process001_outcome json_Unmarshal json_Marshal config req) H)
      as (c & detail & Hc & Hresp).
    exists c, detail. split; [exact Hc|]. rewrite Hresp. apply createErrorResponse_denied.
  - intros H. destruct (process000_denied_scope req H) as [Hpod Hscope].
    split; [exact Hpod|].
    destruct (outcome_denied (process000_outcome json_Unmarshal json_Marshal config req) H)
      as (c & detail & Hc & Hresp).
    exists c, detail. split; [exact Hc|]. split.
    + destruct Hscope as [[err Hu]|Hin]; [|now right].
      destruct c; [now left | |].
      * right. split; [exact Hpod|]. right. now destruct Hc.
      * exfalso.
        rewrite (process000_unparsable json_Unmarshal json_Marshal config req Hpod Hu)
          in Hresp.
        discriminate Hresp.
    + rewrite Hresp. apply createErrorResponse_denied.
  - intros err Hpod Hc Hup Hu. split.
    + rewrite (process000_unparsable json_Unmarshal json_Marshal config req Hpod Hu).
      apply createErrorResponse_denied.
    + intros [_ [H|H]]; [now apply Hc | now apply Hup].
Qed.

(** C8: every response of either revision carries the request's UID; a
    denied response has no patch and no patch type, and a response with a
    patch is an allowed one. *)
Theorem response_echoes_uid_and_keeps_invariant (req : admissionv1.AdmissionRequest) :
  (admissionv1.RespUID (process000 req) = admissionv1.UID req
   /\ responseInvariant (process000 req))
  /\ (admissionv1.RespUID (process001 req) = admissionv1.UID req
      /\ responseInvariant (process001 req)).
Proof.
  pose proof (process000_outcome json_Unmarshal json_Marshal config req) as H0.
  pose proof (process001_outcome json_Unmarshal json_Marshal config req) as H1.
  repeat split;
    first [ now apply (outcome_echoes_uid H0) | now apply (outcome_echoes_uid H1)
          | now apply (outcome_invariant H0) | now apply (outcome_invariant H1) ].
Qed.

(** C10: [injectDNSConfig] returns a nil error for every pod pointer and
    every DNS config, and no response of either revision carries the
    message of the injection-failure branch. *)
Theorem injection_failure_unreachable :
  (forall (pod : option corev1.Pod) (d : DNSConfig), snd (injectDNSConfig pod d) = None)
  /\ (forall req : admissionv1.AdmissionRequest,
         reportsInjectionFailure (process000 req) = false
         /\ reportsInjectionFailure (process001 req) = false).
Proof.
  split.
  - apply injectDNSConfig_no_error.
  - intros req. split.
    + apply (outcome_not_injection_failure
               (process000_outcome json_Unmarshal json_Marshal config req)).
    + apply (outcome_not_injection_failure
               (process001_outcome json_Unmarshal json_Marshal config req)).
Qed.

End EngineClaims.

(** ** The HTTP front against its specification *)

Section ServerClaims.

Variable json_Unmarshal : string -> result admissionv1.AdmissionReview.
Variable json_Marshal : admissionv1.AdmissionReview -> result string.
Variable processAdmissionRequest :
  admissionv1.AdmissionRequest -> admissionv1.AdmissionResponse.

Local Abbreviation serve :=
  (Server.serve json_Unmarshal json_Marshal processAdmissionRequest).

Lemma writeErrorResponse_fresh (code : Z) (message : string) :
  snd (Server.writeErrorResponse code message Server.initial) = rejected code message.
Proof. reflexivity. Qed.

(** Either the request passed every check of the handler, or the handler
    answered with an error object and did not call the engine. *)
Lemma serve_cases (r : Server.Request) :
  (exists code message, serve r = rejected code message /\ code <> Server.StatusOK)
  \/ (Server.Method r = Server.MethodPost
      /\ Server.Header_Get (Server.Header r) "Content-Type" = Server.ContentTypeJSON
      /\ exists body review request,
          Server.Body r = Ok body
          /\ json_Unmarshal body = Ok review
          /\ admissionv1.Request review = Some request
          /\ admissionv1.UID request <> ""
          /\ Server.decided (serve r) = [request]).
Proof.
  unfold Server.serve, Server.HandleInject.
  destruct (String.eqb_spec (Server.Method r) Server.MethodPost) as [Hm|Hm];
    cbn [negb].
  2:{ left. eexists _, _. rewrite writeErrorResponse_fresh. split; [reflexivity|].
      discriminate. }
  destruct (String.eqb_spec (Server.Header_Get (Server.Header r) "Content-Type")
                            Server.ContentTypeJSON) as [Hc|Hc]; cbn [negb].
  2:{ left. eexists _, _. rewrite writeErrorResponse_fresh. split; [reflexivity|].
      discriminate. }
  destruct (Server.Body r) as [body|e] eqn:Hb.
  2:{ left. eexists _, _. rewrite writeErrorResponse_fresh. split; [reflexivity|].
      discriminate. }
  unfold Server.parseAdmissionReview.
  destruct (json_Unmarshal body) as [review|e] eqn:Hu.
  2:{ left. eexists _, _. rewrite writeErrorResponse_fresh. split; [reflexivity|].
      discriminate. }
  destruct (admissionv1.Request review) as [request|] eqn:Hr.
  2:{ left. eexists _, _. rewrite writeErrorResponse_fresh. split; [reflexivity|].
      discriminate. }
  destruct (String.eqb_spec (admissionv1.UID request) "") as [Hi|Hi].
  { left. eexists _, _. rewrite writeErrorResponse_fresh. split; [reflexivity|].
    discriminate. }
  right. repeat split; try assumption.
  exists body, review, request. repeat split; try assumption.
  rewrite Hr. unfold Server.bind, Server.decide. cbn [Server.decided app].
  destruct (json_Marshal _); reflexivity.
Qed.

(** The handler itself never dereferences a nil request. *)
Lemma serve_never_panics (r : Server.Request) :
  Server.panicked (serve r) = false.
Proof.
  unfold Server.serve, Server.HandleInject.
  destruct (negb _); [reflexivity|].
  destruct (negb _); [reflexivity|].
  destruct (Server.Body r) as [body|e]; [|reflexivity].
  unfold Server.parseAdmissionReview.
  destruct (json_Unmarshal body) as [review|e]; [|reflexivity].
  destruct (admissionv1.Request review) as [request|] eqn:Hr; [|reflexivity].
  destruct (admissionv1.UID request =? "")%string; [reflexivity|].
  rewrite Hr. unfold Server.bind, Server.decide.
  destruct (json_Marshal _); reflexivity.
Qed.

(** C9: a request to /inject that fails transport validation (a method
    other than POST, a content type other than application/json, a body
    that is no AdmissionReview, a nil inner request, an empty request UID)
    is answered with a status other than 200 and the one body
    [{error: {code, message}}], and the decision engine is not called. *)
Theorem transport_failure_rejected (r : Server.Request) :
  TransportFailure json_Unmarshal r ->
  exists code message,
    serve r = rejected code message
    /\ code <> Server.StatusOK
    /\ Server.wStatus (Server.writer (serve r)) = Some code
    /\ Server.wBody (Server.writer (serve r)) = [Server.ErrorJSON code message]
    /\ Server.decided (serve r) = [].
Proof.
  intros Hfail.
  destruct (serve_cases r)
    as [(code & message & Hs & Hcode)
       |(Hm & Hc & body & review & request & Hb & Hu & Hr & Hi & _)].
  - exists code, message. rewrite Hs. now repeat split.
  - exfalso. destruct Hfail as [H|H|b e Hb' Hu'|b rv Hb' Hu' Hr'|b rv rq Hb' Hu' Hr' Hi'].
    + now apply H.
    + now apply H.
    + congruence.
    + congruence.
    + assert (rq = request) by congruence. subst rq. now apply Hi.
Qed.

End ServerClaims.

(** ** The theorems at the sample requests *)

Lemma update_patch_policy_is_constant_witness :
  corev1.DNSPolicy_ (corev1.Spec Sample.storedPod) = corev1.DNSClusterFirst
  /\ patchOperations
       Sample.requestedPod
       (Part000.updateWorkingCopy Sample.requestedPod Sample.storedPod)
     = [replacePolicy corev1.DNSNone]
  /\ Part000.processAdmissionRequest Sample.decodePod Sample.encodePatch Sample.config
                                     Sample.updatePolicy
     = withPatch (baseResponse Sample.updatePolicy)
                 "[{op:replace,path:/spec/dnsPolicy,value:None}]".
Proof.
  destruct (@update_patch_policy_is_constant
              Sample.decodePod Sample.encodePatch Sample.config
              Sample.updatePolicy Sample.requestedPod Sample.storedPod
              eq_refl eq_refl eq_refl eq_refl)
    as (_ & _ & Hresp & Hops).
  split; [reflexivity|]. split; [exact Hops|].
  rewrite Hresp. reflexivity.
Defined.

Lemma create_bare_pod_patch_witness :
  AllowedWithPatch
    (Part000.processAdmissionRequest Sample.decodePod Sample.encodePatch Sample.config
                                     Sample.createBare)
    (admissionv1.UID Sample.createBare)
    ("[{op:replace,path:/spec/dnsPolicy,value:None},"
     ++ "{op:add,path:/spec/dnsConfig,value:"
     ++ "{nameservers:[169.254.20.10,10.96.0.10],"
     ++ "searches:[ns.svc.cluster.local,svc.cluster.local,cluster.local],"
     ++ "options:[ndots=3,attempts=2,timeout=1]}}]")%string.
Proof.
  exact (proj1 (@create_bare_pod_patch
                  Sample.decodePod Sample.encodePatch Sample.config
                  Sample.createBare Sample.barePod "ns"
                  eq_refl eq_refl eq_refl eq_refl eq_refl eq_refl eq_refl eq_refl)
               _ eq_refl).
Defined.

(** C3, as the specification words it, fails in both revisions.  Under
    part_001 the bare pod created in namespace ns gets the configured
    static searches (default.svc.cluster.local first), not those derived
    for ns.  Under part_000 a request in namespace ns whose pod object
    carries no namespace gets .svc.cluster.local as first search. *)
Lemma specBarePodPatch_fails :
  ~ specBarePodPatch Part001.processAdmissionRequest
  /\ ~ specBarePodPatch Part000.processAdmissionRequest.
Proof.
  split; intros H.
  - specialize (H Sample.decodePod Sample.encodePatch Sample.config
                  Sample.createBare Sample.barePod "ns" _
                  eq_refl eq_refl eq_refl eq_refl eq_refl eq_refl eq_refl eq_refl
                  eq_refl).
    destruct H as (_ & _ & _ & Hpatch & _).
    vm_compute in Hpatch. discriminate Hpatch.
  - specialize (H SampleCreate.decodePod Sample.encodePatch Sample.config
                  SampleCreate.createUnplaced SampleCreate.unplacedPod "ns" _
                  eq_refl eq_refl eq_refl eq_refl eq_refl eq_refl eq_refl eq_refl
                  eq_refl).
    destruct H as (_ & _ & _ & Hpatch & _).
    vm_compute in Hpatch. discriminate Hpatch.
Qed.

Example create_bare_pod_001 :
  admissionv1.Patch
    (Part001.processAdmissionRequest Sample.decodePod Sample.encodePatch Sample.config
                                     Sample.createBare)
  = Some ("[{op:replace,path:/spec/dnsPolicy,value:None},"
          ++ "{op:add,path:/spec/dnsConfig,value:"
          ++ "{nameservers:[169.254.20.10,10.96.0.10],"
          ++ "searches:[default.svc.cluster.local,svc.cluster.local,cluster.local],"
          ++ "options:[ndots=3,attempts=2,timeout=1]}}]")%string.
Proof. reflexivity. Qed.

Example create_unplaced_pod_000 :
  admissionv1.Patch
    (Part000.processAdmissionRequest SampleCreate.decodePod Sample.encodePatch
                                     Sample.config SampleCreate.createUnplaced)
  = Some ("[{op:replace,path:/spec/dnsPolicy,value:None},"
          ++ "{op:add,path:/spec/dnsConfig,value:"
          ++ "{nameservers:[169.254.20.10,10.96.0.10],"
          ++ "searches:[.svc.cluster.local,svc.cluster.local,cluster.local],"
          ++ "options:[ndots=3,attempts=2,timeout=1]}}]")%string.
Proof. reflexivity. Qed.

Lemma process000_parses_before_operation_witness :
  admissionv1.Operation_ Sample.deletePod = admissionv1.Delete
  /\ Part000.processAdmissionRequest Sample.decodePod Sample.encodePatch Sample.config
                                     Sample.deletePod
     = createErrorResponse (admissionv1.UID Sample.deletePod)
                           "Failed to parse pod: unexpected end of JSON input"
  /\ Part001.processAdmissionRequest Sample.decodePod Sample.encodePatch Sample.config
                                     Sample.deletePod
     = baseResponse Sample.deletePod.
Proof.
  assert (Hc : admissionv1.Operation_ Sample.deletePod <> admissionv1.Create)
    by discriminate.
  assert (Hu : admissionv1.Operation_ Sample.deletePod <> admissionv1.Update)
    by discriminate.
  split; [reflexivity|]. split.
  - exact (proj1 (@process000_parses_before_operation
                    Sample.decodePod Sample.encodePatch Sample.config
                    Sample.deletePod "unexpected end of JSON input"
                    eq_refl Hc Hu eq_refl)).
  - reflexivity.
Defined.

Lemma parse_failure_is_denied_witness :
  inScope Sample.createUnparsable
  /\ DeniedWith
       (Part000.processAdmissionRequest Sample.decodePod Sample.encodePatch Sample.config
                                        Sample.createUnparsable)
       (admissionv1.UID Sample.createUnparsable)
       "Failed to parse pod: invalid character"
  /\ admissionv1.Operation_ Sample.deletePod = admissionv1.Delete
  /\ DeniedWith
       (Part000.processAdmissionRequest Sample.decodePod Sample.encodePatch Sample.config
                                        Sample.deletePod)
       (admissionv1.UID Sample.deletePod)
       "Failed to parse pod: unexpected end of JSON input".
Proof.
  assert (Hin : inScope Sample.createUnparsable)
    by (split; [reflexivity | left; reflexivity]).
  assert (Hc : admissionv1.Operation_ Sample.deletePod <> admissionv1.Create)
    by discriminate.
  assert (Hu : admissionv1.Operation_ Sample.deletePod <> admissionv1.Update)
    by discriminate.
  split; [exact Hin|]. split.
  - exact (proj1 (proj1 (@parse_failure_is_denied
                           Sample.decodePod Sample.encodePatch Sample.config
                           Sample.createUnparsable)
                        "invalid character" Hin eq_refl)).
  - split; [reflexivity|].
    exact (proj1 (proj2 (proj2 (proj2 (@parse_failure_is_denied
                                         Sample.decodePod Sample.encodePatch
                                         Sample.config Sample.deletePod)))
                        "unexpected end of JSON input" eq_refl Hc Hu eq_refl)).
Defined.

Lemma transport_failure_rejected_witness :
  TransportFailure Sample.decodeReview Sample.textRequest
  /\ exists code message,
      Server.serve Sample.decodeReview Sample.encodeReview
                   (Part001.processAdmissionRequest
                      Sample.decodePod Sample.encodePatch Sample.config)
                   Sample.textRequest
      = rejected code message
      /\ code <> Server.StatusOK.
Proof.
  assert (H : TransportFailure Sample.decodeReview Sample.textRequest).
  { apply WrongContentType. discriminate. }
  split; [exact H|].
  destruct (@transport_failure_rejected
              Sample.decodeReview Sample.encodeReview
              (Part001.processAdmissionRequest
                 Sample.decodePod Sample.encodePatch Sample.config)
              Sample.textRequest H)
    as (code & message & Hs & Hcode & _).
  now exists code, message.
Defined.

(** The sample requests, run. *)

Example serve_text_plain :
  Server.serve Sample.decodeReview Sample.encodeReview
               (Part001.processAdmissionRequest
                  Sample.decodePod Sample.encodePatch Sample.config)
               Sample.textRequest
  = rejected 400 "Content-Type must be application/json".
Proof. reflexivity. Qed.

Example serve_get :
  Server.serve Sample.decodeReview Sample.encodeReview
               (Part001.processAdmissionRequest
                  Sample.decodePod Sample.encodePatch Sample.config)
               Sample.getRequest
  = rejected 405 "Only POST method is allowed".
Proof. reflexivity. Qed.

Example host_network_pod_patch :
  patchOperations Sample.hostNetPod
                  (injected Sample.hostNetPod
                            (derivedDNSConfig Sample.config Sample.hostNetPod))
  = [replacePolicy corev1.DNSNone].
Proof. reflexivity. Qed.

Example self_managed_pod_patch :
  patchOperations Sample.selfManagedPod
                  (injected Sample.selfManagedPod
                            (derivedDNSConfig Sample.config Sample.selfManagedPod))
  = [replacePolicy corev1.DNSNone; addConfig Sample.ownConfig].
Proof. reflexivity. Qed.

Example serialization_failure_is_denied :
  Part000.processAdmissionRequest Sample.decodePod Sample.failingEncodePatch
                                  Sample.config Sample.createBare
  = createErrorResponse
      (admissionv1.UID Sample.createBare)
      "Failed to generate patch: failed to marshal JSON patch: unsupported value".
Proof. reflexivity. Qed.

(** ** Facts about [strings.Split] and [strconv.Atoi] *)

Lemma Split_not_nil (s : string) (sep : ascii) : strings.Split s sep <> [].
Proof.
  destruct s as [|c rest]; simpl; [discriminate|].
  destruct (c =? sep)%char; [discriminate|].
  destruct (strings.Split rest sep); discriminate.
Qed.

Lemma concat_String (sep : string) (c : ascii) (piece : string) (pieces : list string) :
  String.concat sep (String c piece :: pieces)
  = String c (String.concat sep (piece :: pieces)).
Proof. now destruct pieces. Qed.

Lemma concat_sep_first (sep : ascii) (piece : string) (pieces : list string) :
  String.concat (String sep "") ("" :: piece :: pieces)
  = String sep (String.concat (String sep "") (piece :: pieces)).
Proof. reflexivity. Qed.

Lemma Join_Split (s : string) (sep : ascii) :
  strings.Join (strings.Split s sep) sep = s.
Proof.
  unfold strings.Join. induction s as [|c rest IH]; [reflexivity|].
  pose proof (Split_not_nil rest sep) as Hn.
  cbn [strings.Split].
  destruct (strings.Split rest sep) as [|piece pieces] eqn:Hs; [now elim Hn|].
  destruct (Ascii.eqb_spec c sep) as [->|Hc].
  - now rewrite concat_sep_first, IH.
  - now rewrite concat_String, IH.
Qed.

Lemma length_Split (s : string) (sep : ascii) :
  length (strings.Split s sep) = S (strings.Count s sep).
Proof.
  induction s as [|c rest IH]; simpl; [reflexivity|].
  destruct (c =? sep)%char; simpl; [now rewrite IH|].
  destruct (strings.Split rest sep); simpl in *; lia.
Qed.

Lemma Split_free (s : string) (sep : ascii) :
  strings.Count s sep = 0 -> strings.Split s sep = [s].
Proof.
  induction s as [|c rest IH]; simpl; [reflexivity|].
  destruct (c =? sep)%char; simpl; [discriminate|].
  intros H. now rewrite (IH H).
Qed.

Lemma Split_app (piece rest : string) (sep : ascii) :
  strings.Count piece sep = 0 ->
  strings.Split (piece ++ String sep rest) sep = piece :: strings.Split rest sep.
Proof.
  induction piece as [|c piece IH]; simpl.
  - intros _. now rewrite Ascii.eqb_refl.
  - destruct (c =? sep)%char; simpl; [discriminate|].
    intros H. now rewrite (IH H).
Qed.

Lemma digits_free (s : string) (n v : Z) :
  strconv.digits s n = Some v -> strings.Count s "." = 0.
Proof.
  revert n. induction s as [|c rest IH]; simpl; intros n H; [reflexivity|].
  destruct (strconv.digit c) as [d|] eqn:Hd; [|discriminate].
  rewrite (IH _ H).
  destruct (Ascii.eqb_spec c ".") as [->|_]; [discriminate Hd | reflexivity].
Qed.

Lemma unsigned_free (neg : bool) (body : string) (v : Z) :
  strconv.unsigned neg body = Ok v -> strings.Count body "." = 0.
Proof.
  unfold strconv.unsigned. destruct body as [|b body']; [discriminate|].
  destruct (strconv.digits (String b body') 0) as [n|] eqn:Hd; [|discriminate].
  intros _. now apply digits_free with 0%Z n.
Qed.

Lemma Atoi_free (s : string) (v : Z) :
  strconv.Atoi s = Ok v -> strings.Count s "." = 0.
Proof.
  unfold strconv.Atoi. destruct s as [|c rest]; [discriminate|].
  destruct (Ascii.eqb_spec c "-") as [->|Hm].
  { intros H. simpl. now apply unsigned_free with true v. }
  destruct (Ascii.eqb_spec c "+") as [->|Hp].
  { intros H. simpl. now apply unsigned_free with false v. }
  intros H. now apply unsigned_free with false v.
Qed.

Lemma isOctet_free (part : string) : isOctet part -> strings.Count part "." = 0.
Proof. intros (num & H & _). now apply Atoi_free with num. Qed.

Lemma validateOctets_iff (parts : list string) :
  validateOctets parts = None <-> Forall isOctet parts.
Proof.
  induction parts as [|part rest IH]; simpl.
  - split; [constructor | reflexivity].
  - destruct (strconv.Atoi part) as [num|msg] eqn:Ha.
    + destruct (num <? 0)%Z eqn:Hlo; simpl.
      * split; [discriminate|]. intros H. inversion H as [|? ? (n & Hn & Hr) _]; subst.
        rewrite Ha in Hn. injection Hn as <-. lia.
      * destruct (num >? 255)%Z eqn:Hhi.
        -- split; [discriminate|]. intros H. inversion H as [|? ? (n & Hn & Hr) _]; subst.
           rewrite Ha in Hn. injection Hn as <-. lia.
        -- rewrite IH. split.
           ++ intros H. constructor; [|exact H]. exists num. split; [exact Ha|lia].
           ++ intros H. now inversion H.
    + split; [discriminate|]. intros H. inversion H as [|? ? (n & Hn & _) _]; subst.
      rewrite Ha in Hn. discriminate.
Qed.

Lemma Split_dotted (a b c d : string) :
  strings.Count a "." = 0 -> strings.Count b "." = 0 ->
  strings.Count c "." = 0 -> strings.Count d "." = 0 ->
  strings.Split (dotted a b c d) "." = [a; b; c; d].
Proof.
  intros Ha Hb Hc Hd. unfold dotted.
  change (a ++ "." ++ b ++ "." ++ c ++ "." ++ d)%string
    with (a ++ String "." (b ++ String "." (c ++ String "." d)))%string.
  rewrite !Split_app by assumption. rewrite Split_free by assumption.
  reflexivity.
Qed.

(** ** [validateIPAddress] *)

Lemma validateIPAddress_dotted (a b c d : string) :
  isOctet a -> isOctet b -> isOctet c -> isOctet d ->
  validateIPAddress (dotted a b c d) = None.
Proof.
  intros Ha Hb Hc Hd. unfold validateIPAddress.
  rewrite Split_dotted by now apply isOctet_free.
  cbn [length Nat.eqb negb]. apply validateOctets_iff.
  now repeat constructor.
Qed.

(** X1: [validateIPAddress] accepts exactly the strings a.b.c.d whose four
    parts are numbers between 0 and 255 as [strconv.Atoi] reads them (so a
    sign and leading zeros pass). *)
Theorem validateIPAddress_accepts_iff (ip : string) :
  validateIPAddress ip = None
  <-> exists a b c d,
      ip = dotted a b c d /\ isOctet a /\ isOctet b /\ isOctet c /\ isOctet d.
Proof.
  split.
  - unfold validateIPAddress.
    destruct (strings.Split ip ".") as [|a [|b [|c [|d [|e rest]]]]] eqn:Hs;
      cbn [length Nat.eqb negb]; try discriminate.
    intros H. apply validateOctets_iff in H.
    inversion H as [|? ? Ha H1]; subst. inversion H1 as [|? ? Hb H2]; subst.
    inversion H2 as [|? ? Hc H3]; subst. inversion H3 as [|? ? Hd _]; subst.
    exists a, b, c, d. repeat split; try assumption.
    rewrite <- (Join_Split ip "."), Hs. reflexivity.
  - intros (a & b & c & d & -> & Ha & Hb & Hc & Hd).
    now apply validateIPAddress_dotted.
Qed.

(** X2: a string that does not hold exactly three dots (the empty string, a
    host name, an IPv6 address) is refused with the format error. *)
Theorem validateIPAddress_needs_three_dots (ip : string) :
  strings.Count ip "." <> 3 ->
  validateIPAddress ip = Some "invalid IP address format".
Proof.
  intros H. unfold validateIPAddress. rewrite length_Split.
  destruct (Nat.eqb_spec (S (strings.Count ip ".")) 4) as [He|He]; [lia|reflexivity].
Qed.

Lemma validateIPAddress_needs_three_dots_witness :
  strings.Count "kube-dns.kube-system.svc" "." <> 3
  /\ validateIPAddress "kube-dns.kube-system.svc" = Some "invalid IP address format".
Proof.
  assert (H : strings.Count "kube-dns.kube-system.svc" "." <> 3) by discriminate.
  split; [exact H | exact (validateIPAddress_needs_three_dots _ H)].
Defined.

Lemma decimal_octets :
  forallb (fun n => match strconv.Atoi (decimal n) with
                    | Ok v => (v =? Z.of_nat n)%Z
                    | Err _ => false
                    end) (seq 0 256) = true.
Proof. vm_compute. reflexivity. Qed.

Lemma isOctet_decimal (n : nat) : n <= 255 -> isOctet (decimal n).
Proof.
  intros H. pose proof decimal_octets as Hall.
  rewrite forallb_forall in Hall.
  specialize (Hall n). rewrite in_seq in Hall.
  assert (Hin : 0 <= n < 0 + 256) by lia. specialize (Hall Hin).
  destruct (strconv.Atoi (decimal n)) as [v|] eqn:Ha; [|discriminate].
  apply Z.eqb_eq in Hall. exists v. split; [exact Ha | lia].
Qed.

(** X3: every dotted quad of four decimal numerals between 0 and 255 is
    accepted. *)
Theorem validateIPAddress_accepts_dotted_quads (a b c d : nat) :
  a <= 255 -> b <= 255 -> c <= 255 -> d <= 255 ->
  validateIPAddress (dotted (decimal a) (decimal b) (decimal c) (decimal d)) = None.
Proof.
  intros Ha Hb Hc Hd.
  apply validateIPAddress_dotted; now apply isOctet_decimal.
Qed.

Lemma validateIPAddress_accepts_dotted_quads_witness :
  validateIPAddress "169.254.20.10" = None.
Proof.
  exact (@validateIPAddress_accepts_dotted_quads 169 254 20 10
           ltac:(lia) ltac:(lia) ltac:(lia) ltac:(lia)).
Defined.

Example validateIPAddress_signed_octets : validateIPAddress "+10.096.-0.010" = None.
Proof. reflexivity. Qed.

Example validateIPAddress_out_of_range :
  validateIPAddress "10.96.0.256" = Some "invalid IP address octet: 256".
Proof. reflexivity. Qed.

(** ** The configuration loader *)

Lemma assign_at (A : Type) (done : list A) (x v : A) (rest : list A) :
  assign (done ++ x :: rest) (length done) v = done ++ v :: rest.
Proof. induction done as [|d ds IH]; simpl; [reflexivity | now rewrite IH]. Qed.

Lemma range_from_in_place (A : Type) (f : A -> A) :
  forall (xs done : list A),
    range_from (fun i x acc => assign acc i (f x)) (length done) xs (done ++ xs)
    = done ++ map f xs.
Proof.
  induction xs as [|x rest IH]; intros done; simpl; [reflexivity|].
  rewrite assign_at.
  replace (done ++ f x :: rest) with ((done ++ [f x]) ++ rest)
    by (now rewrite <- app_assoc).
  replace (Datatypes.S (length done)) with (length (done ++ [f x]))
    by (rewrite length_app; simpl; lia).
  rewrite IH, <- app_assoc. reflexivity.
Qed.

Lemma range_in_place (A : Type) (f : A -> A) (xs : list A) :
  range (fun i x acc => assign acc i (f x)) xs xs = map f xs.
Proof. apply (range_from_in_place f xs []). Qed.

Lemma validateIPAddress_empty : validateIPAddress "" <> None.
Proof. discriminate. Qed.

Section ConfigFacts.

Variable TrimSpace : string -> string.
Variable Getenv : string -> string.

Local Abbreviation parse := (parseDNSOptions TrimSpace).
Local Abbreviation parsePairs := (parseDNSOptionPairs TrimSpace).
Local Abbreviation validate := (validateConfig TrimSpace).
Local Abbreviation load := (LoadConfig TrimSpace Getenv).
Local Abbreviation Parsed := (ParsedOption TrimSpace).

Lemma parseDNSOptionPairs_iff (pairs : list string) :
  forall (options result : list DNSOption),
    parsePairs pairs options = Ok result
    <-> exists parsed, result = options ++ parsed /\ Forall2 Parsed pairs parsed.
Proof.
  induction pairs as [|piece rest IH]; intros options result; simpl.
  - split.
    + intros [= <-]. exists []. split; [now rewrite app_nil_r | constructor].
    + intros (parsed & -> & H). inversion H. now rewrite app_nil_r.
  - split.
    + destruct (strings.Split (TrimSpace piece) ":")
        as [|part0 [|part1 [|part2 more]]] eqn:Hs; try discriminate.
      destruct (String.eqb_spec (TrimSpace part0) "") as [Hn|Hn]; [discriminate|].
      destruct (String.eqb_spec (TrimSpace part1) "") as [Hv|Hv]; [discriminate|].
      cbn [orb]. intros H. apply IH in H. destruct H as (parsed & -> & Hall).
      exists ({| Name := TrimSpace part0; Value := TrimSpace part1 |} :: parsed).
      split; [now rewrite <- app_assoc|].
      constructor; [|exact Hall]. now exists part0, part1.
    + intros (parsed & -> & H).
      inversion H as [|? o ? parsed' (part0 & part1 & Hs & Hn & Hv & Hne & Hve) Hall];
        subst.
      rewrite Hs, <- Hn, <- Hv.
      apply String.eqb_neq in Hne, Hve. rewrite Hne, Hve. cbn [orb].
      apply IH. exists parsed'. split; [|exact Hall].
      rewrite <- app_assoc. destruct o as [n v]. simpl in *. reflexivity.
Qed.

Lemma parseDNSOptions_parsed (optionsStr : string) (options : list DNSOption) :
  parse optionsStr = Ok options ->
  Forall2 Parsed (strings.Split optionsStr ",") options.
Proof.
  unfold parseDNSOptions. rewrite parseDNSOptionPairs_iff.
  now intros (parsed & -> & H).
Qed.

(** X4: [parseDNSOptions] succeeds exactly when every comma-separated piece,
    trimmed, splits at one colon into a name and a value that are not empty
    once trimmed; the options returned are those names and values, one per
    piece, in the order of the pieces. *)
Theorem parseDNSOptions_ok_iff (optionsStr : string) (options : list DNSOption) :
  parse optionsStr = Ok options
  <-> Forall2 Parsed (strings.Split optionsStr ",") options.
Proof.
  unfold parseDNSOptions. rewrite parseDNSOptionPairs_iff. split.
  - now intros (parsed & -> & H).
  - intros H. now exists options.
Qed.

(** X5: what [parseDNSOptions] returns is never empty, holds one option per
    comma-separated piece, and no option in it has an empty name or an empty
    value. *)
Theorem parseDNSOptions_result (optionsStr : string) (options : list DNSOption) :
  parse optionsStr = Ok options ->
  options <> []
  /\ length options = S (strings.Count optionsStr ",")
  /\ Forall (fun o => Name o <> "" /\ Value o <> "") options.
Proof.
  intros H. apply parseDNSOptions_parsed in H.
  assert (Hlen : length options = length (strings.Split optionsStr ","))
    by (symmetry; eapply Forall2_length; eassumption).
  rewrite length_Split in Hlen. repeat split.
  - intros ->. discriminate Hlen.
  - exact Hlen.
  - clear Hlen. induction H as [|piece o pieces os (p0 & p1 & _ & _ & _ & Hn & Hv) _ IH];
      constructor; [now split | exact IH].
Qed.

(** X6: one piece that does not hold exactly one colon (no colon, or a value
    with a colon in it) makes [parseDNSOptions] refuse the whole string. *)
Theorem parseDNSOptions_one_colon (optionsStr piece : string) :
  In piece (strings.Split optionsStr ",") ->
  strings.Count (TrimSpace piece) ":" <> 1 ->
  exists msg, parse optionsStr = Err msg.
Proof.
  intros Hin Hcount.
  destruct (parse optionsStr) as [options|msg] eqn:Hp; [|now exists msg].
  exfalso. apply parseDNSOptions_parsed in Hp.
  assert (Hex : exists o, Parsed piece o).
  { clear Hcount. induction Hp as [|p o ps os Hpo _ IH]; [now elim Hin|].
    destruct Hin as [->|Hin]; [now exists o | now apply IH]. }
  destruct Hex as (o & part0 & part1 & Hs & _).
  apply Hcount. pose proof (length_Split (TrimSpace piece) ":") as Hl.
  rewrite Hs in Hl. simpl in Hl. lia.
Qed.

Lemma validateDNSOptions_iff (options : list DNSOption) :
  validateDNSOptions TrimSpace options = None
  <-> Forall (fun o => TrimSpace (Name o) <> "" /\ TrimSpace (Value o) <> "") options.
Proof.
  induction options as [|o rest IH]; simpl.
  - split; [constructor | reflexivity].
  - destruct (String.eqb_spec (TrimSpace (Name o)) "") as [Hn|Hn].
    { split; [discriminate|]. intros H. inversion H as [|? ? [Hx _] _]. now elim Hx. }
    destruct (String.eqb_spec (TrimSpace (Value o)) "") as [Hv|Hv].
    { split; [discriminate|]. intros H. inversion H as [|? ? [_ Hx] _]. now elim Hx. }
    rewrite IH. split.
    + intros H. now constructor.
    + intros H. now inversion H.
Qed.

Lemma validateSearchDomains_iff (domains : list string) :
  validateSearchDomains TrimSpace domains = None
  <-> Forall (fun domain => TrimSpace domain <> "") domains.
Proof.
  induction domains as [|d rest IH]; simpl.
  - split; [constructor | reflexivity].
  - destruct (String.eqb_spec (TrimSpace d) "") as [Hd|Hd].
    { split; [discriminate|]. intros H. inversion H as [|? ? Hx _]. now elim Hx. }
    rewrite IH. split.
    + intros H. now constructor.
    + intros H. now inversion H.
Qed.

Lemma validateConfig_spec (config : Config) :
  validate config = None <-> ValidConfig TrimSpace config.
Proof.
  unfold validateConfig, ValidConfig.
  destruct (validateIPAddress (NodeLocalDNSAddress config)) as [e|] eqn:Hn.
  { split; [discriminate|]. now intros [H _]. }
  destruct (validateIPAddress (ClusterDNSAddress config)) as [e|] eqn:Hc.
  { split; [discriminate|]. now intros (_ & H & _). }
  destruct (SearchDomains config) as [|d ds] eqn:Hs; cbn [length Nat.eqb].
  { split; [discriminate|]. intros (_ & _ & H & _). now elim H. }
  rewrite <- validateSearchDomains_iff, <- validateDNSOptions_iff.
  destruct (validateSearchDomains TrimSpace (d :: ds)) as [e|] eqn:Hd.
  { split; [discriminate|]. now intros (_ & _ & _ & H & _). }
  split.
  - intros H. repeat split; try assumption. discriminate.
  - now intros (_ & _ & _ & _ & H).
Qed.

(** X7: a configuration that passes [validateConfig] has two addresses
    that pass [validateIPAddress], at least one search domain, no blank
    search domain and no option with a blank name or value; and nothing
    else is asked: every such configuration passes. *)
Theorem validateConfig_iff (config : Config) :
  validate config = None <-> ValidConfig TrimSpace config.
Proof.
  split; intros H.
  - now apply validateConfig_spec.
  - now apply validateConfig_spec.
Qed.

End ConfigFacts.

Section LoaderFacts.

Variable TrimSpace : string -> string.
Variable Getenv : string -> string.

Local Abbreviation parse := (parseDNSOptions TrimSpace).
Local Abbreviation validate := (validateConfig TrimSpace).
Local Abbreviation loadEnv := (loadFromEnvironment TrimSpace Getenv).
Local Abbreviation load := (LoadConfig TrimSpace Getenv).

(** What a call of [loadFromEnvironment] that returns no error has done. *)
Lemma loadFromEnvironment_ok (config config' : Config) :
  loadEnv config = (config', None) ->
  validateIPAddress (Getenv EnvNodeLocalDNSAddress) = None
  /\ NodeLocalDNSAddress config' = Getenv EnvNodeLocalDNSAddress
  /\ ClusterDNSAddress config' = ClusterDNSAddress config
  /\ SearchDomains config'
     = (if (Getenv EnvSearchDomains =? "")%string then SearchDomains config
        else map TrimSpace (strings.Split (Getenv EnvSearchDomains) ","))
  /\ (if (Getenv EnvDNSOptions =? "")%string
      then DNSOptions config' = DNSOptions config
      else parse (Getenv EnvDNSOptions) = Ok (DNSOptions config')).
Proof.
  unfold loadFromEnvironment.
  destruct (Getenv EnvNodeLocalDNSAddress =? "")%string; [discriminate|].
  destruct (validateIPAddress (Getenv EnvNodeLocalDNSAddress)) as [e|] eqn:Hv;
    [discriminate|].
  cbn [SearchDomains with_SearchDomains]. rewrite range_in_place.
  destruct (Getenv EnvSearchDomains =? "")%string; cbn [negb];
    (destruct (Getenv EnvDNSOptions =? "")%string; cbn [negb];
     [ intros [= <-]; now repeat split
     | destruct (parseDNSOptions TrimSpace (Getenv EnvDNSOptions)) as [o|e] eqn:Hp;
       [intros [= <-]; now repeat split | discriminate] ]).
Qed.

Lemma LoadConfig_ok (clusterDNSIP : string) (config : Config) :
  load clusterDNSIP = Ok config ->
  exists loaded,
    loadEnv DefaultConfig = (loaded, None)
    /\ config = with_ClusterDNSAddress loaded clusterDNSIP
    /\ validate config = None.
Proof.
  unfold LoadConfig.
  destruct (loadFromEnvironment TrimSpace Getenv DefaultConfig) as [loaded [e|]] eqn:Hl;
    [discriminate|].
  destruct (validateConfig TrimSpace (with_ClusterDNSAddress loaded clusterDNSIP))
    as [e|] eqn:Hv; [discriminate|].
  intros [= <-]. now exists loaded.
Qed.

(** Everything known of a configuration [LoadConfig] returned. *)
Lemma LoadConfig_inv (clusterDNSIP : string) (config : Config) :
  load clusterDNSIP = Ok config ->
  ValidConfig TrimSpace config
  /\ ClusterDNSAddress config = clusterDNSIP
  /\ NodeLocalDNSAddress config = Getenv EnvNodeLocalDNSAddress
  /\ SearchDomains config
     = (if (Getenv EnvSearchDomains =? "")%string then SearchDomains DefaultConfig
        else map TrimSpace (strings.Split (Getenv EnvSearchDomains) ","))
  /\ (if (Getenv EnvDNSOptions =? "")%string
      then DNSOptions config = DNSOptions DefaultConfig
      else parse (Getenv EnvDNSOptions) = Ok (DNSOptions config)).
Proof.
  intros H. destruct (LoadConfig_ok _ H) as (loaded & Hl & -> & Hv).
  apply loadFromEnvironment_ok in Hl. destruct Hl as (Ha & Hn & _ & Hs & Ho).
  apply validateConfig_spec in Hv.
  split; [exact Hv|]. split; [reflexivity|]. split; [exact Hn|].
  split; [exact Hs | exact Ho].
Qed.

(** X8: every configuration [LoadConfig] returns passes [validateConfig],
    carries the cluster DNS address it was called with (the default
    10.96.0.10 never survives) and the node-local address of the
    environment; so a missing or malformed address of either kind is always
    refused. *)
Theorem LoadConfig_valid (clusterDNSIP : string) (config : Config) :
  load clusterDNSIP = Ok config ->
  ValidConfig TrimSpace config
  /\ ClusterDNSAddress config = clusterDNSIP
  /\ NodeLocalDNSAddress config = Getenv EnvNodeLocalDNSAddress
  /\ validateIPAddress clusterDNSIP = None
  /\ validateIPAddress (Getenv EnvNodeLocalDNSAddress) = None.
Proof.
  intros H. destruct (LoadConfig_inv _ H) as (Hv & Hc & Hn & _).
  pose proof Hv as (Hvn & Hvc & _). rewrite Hn in Hvn. rewrite Hc in Hvc.
  split; [exact Hv|]. split; [exact Hc|]. split; [exact Hn|].
  split; [exact Hvc | exact Hvn].
Qed.

(** X9: in a configuration [LoadConfig] returns, the search domains are the
    defaults when SEARCH_DOMAINS is unset and otherwise its comma-separated
    pieces, each trimmed, in order; the options are the defaults when
    DNS_OPTIONS is unset and otherwise what [parseDNSOptions] makes of it. *)
Theorem LoadConfig_environment (clusterDNSIP : string) (config : Config) :
  load clusterDNSIP = Ok config ->
  SearchDomains config
  = (if (Getenv EnvSearchDomains =? "")%string then SearchDomains DefaultConfig
     else map TrimSpace (strings.Split (Getenv EnvSearchDomains) ","))
  /\ (if (Getenv EnvDNSOptions =? "")%string
      then DNSOptions config = DNSOptions DefaultConfig
      else parse (Getenv EnvDNSOptions) = Ok (DNSOptions config)).
Proof.
  intros H. destruct (LoadConfig_inv _ H) as (_ & _ & _ & Hs & Ho).
  split; [exact Hs | exact Ho].
Qed.

(** X10: without NODE_LOCAL_DNS_ADDRESS in the environment [LoadConfig]
    fails, whatever the cluster DNS address and the other variables are,
    and the error names the variable. *)
Theorem LoadConfig_requires_address (clusterDNSIP : string) :
  Getenv EnvNodeLocalDNSAddress = "" ->
  load clusterDNSIP
  = Err ("failed to load configuration from environment: "
         ++ "node local DNS address is required but not provided "
         ++ "via environment variable NODE_LOCAL_DNS_ADDRESS")%string.
Proof.
  intros H. unfold LoadConfig, loadFromEnvironment. rewrite H. reflexivity.
Qed.

(** X11: with a valid node-local address in the environment, the two
    optional variables unset, a valid cluster DNS address and a
    [TrimSpace] that does not blank the default names, [LoadConfig] returns
    the defaults with the two addresses put in. *)
Theorem LoadConfig_defaults (clusterDNSIP : string) :
  validateIPAddress (Getenv EnvNodeLocalDNSAddress) = None ->
  Getenv EnvSearchDomains = "" ->
  Getenv EnvDNSOptions = "" ->
  validateIPAddress clusterDNSIP = None ->
  validateSearchDomains TrimSpace (SearchDomains DefaultConfig) = None ->
  validateDNSOptions TrimSpace (DNSOptions DefaultConfig) = None ->
  load clusterDNSIP
  = Ok {| NodeLocalDNSAddress := Getenv EnvNodeLocalDNSAddress;
          SearchDomains := SearchDomains DefaultConfig;
          DNSOptions := DNSOptions DefaultConfig;
          ClusterDNSAddress := clusterDNSIP;
          ClusterDomain := ClusterDomain DefaultConfig |}.
Proof.
  intros Ha Hs Ho Hc Hds Hos.
  unfold LoadConfig, loadFromEnvironment. rewrite Ha, Hs, Ho.
  destruct (String.eqb_spec (Getenv EnvNodeLocalDNSAddress) "") as [He|He].
  { rewrite He in Ha. now elim validateIPAddress_empty. }
  cbn [String.eqb negb].
  unfold validateConfig.
  cbn [with_ClusterDNSAddress with_NodeLocalDNSAddress NodeLocalDNSAddress
       ClusterDNSAddress SearchDomains DNSOptions ClusterDomain].
  rewrite Ha, Hc.
  cbn [SearchDomains DNSOptions] in Hds, Hos.
  change (SearchDomains DefaultConfig)
    with ["default.svc.cluster.local"; "svc.cluster.local"; "cluster.local"] in *.
  cbn [length Nat.eqb]. rewrite Hds, Hos. reflexivity.
Qed.

(** X12: for a configuration [LoadConfig] returned, both engines inject the
    two nameservers, node-local first: the branch of [createDNSConfig] that
    leaves the cluster DNS address out is never taken. *)
Theorem LoadConfig_two_nameservers (clusterDNSIP : string) (config : Config) :
  load clusterDNSIP = Ok config ->
  Nameservers (Part001.createDNSConfig config)
  = [Getenv EnvNodeLocalDNSAddress; clusterDNSIP]
  /\ forall pod,
      Nameservers (derivedDNSConfig config pod)
      = [Getenv EnvNodeLocalDNSAddress; clusterDNSIP].
Proof.
  intros H. apply LoadConfig_inv in H. destruct H as ((_ & Hv & _) & Hc & Hn & _).
  rewrite Hc in Hv.
  unfold Part001.createDNSConfig, derivedDNSConfig. cbn [Nameservers].
  rewrite Hc, Hn.
  destruct (String.eqb_spec clusterDNSIP "") as [He|He].
  - rewrite He in Hv. now elim validateIPAddress_empty.
  - now split.
Qed.

(** X13: when [TrimSpace] is idempotent, the options [parseDNSOptions]
    returns always pass the option checks of [validateConfig]. *)
Theorem parsed_options_validate (optionsStr : string) (options : list DNSOption) :
  (forall s, TrimSpace (TrimSpace s) = TrimSpace s) ->
  parse optionsStr = Ok options ->
  validateDNSOptions TrimSpace options = None.
Proof.
  intros Hidem H. apply parseDNSOptions_parsed in H. apply validateDNSOptions_iff.
  induction H as [|piece o pieces os (p0 & p1 & _ & Hn & Hv & Hne & Hve) _ IH];
    constructor; [|exact IH].
  rewrite Hn, Hv, !Hidem. rewrite <- Hn, <- Hv. now split.
Qed.

(** X14: when [TrimSpace] is idempotent, a SEARCH_DOMAINS value with a
    blank piece (a doubled or trailing comma) makes [LoadConfig] fail. *)
Theorem LoadConfig_blank_search_domain (clusterDNSIP piece : string) :
  (forall s, TrimSpace (TrimSpace s) = TrimSpace s) ->
  Getenv EnvSearchDomains <> "" ->
  In piece (strings.Split (Getenv EnvSearchDomains) ",") ->
  TrimSpace piece = "" ->
  exists msg, load clusterDNSIP = Err msg.
Proof.
  intros Hidem Hset Hin Hblank.
  destruct (load clusterDNSIP) as [config|msg] eqn:Hl; [|now exists msg].
  exfalso.
  destruct (LoadConfig_inv _ Hl) as ((_ & _ & _ & Hd & _) & _ & _ & Hs & _).
  apply String.eqb_neq in Hset. rewrite Hset in Hs.
  rewrite Hs, Forall_forall in Hd.
  apply (Hd (TrimSpace piece)).
  - now apply in_map.
  - now rewrite Hidem.
Qed.

End LoaderFacts.

(** ** The sample [TrimSpace] *)

Lemma trimLeft_idem (l : list ascii) :
  SampleEnv.trimLeft (SampleEnv.trimLeft l) = SampleEnv.trimLeft l.
Proof.
  induction l as [|c r IH]; simpl; [reflexivity|].
  destruct (SampleEnv.isSpace c) eqn:Hc; [exact IH|].
  simpl. now rewrite Hc.
Qed.

Lemma trimLeft_suffix (l : list ascii) :
  exists spaces, l = spaces ++ SampleEnv.trimLeft l.
Proof.
  induction l as [|c r [spaces IH]]; simpl; [now exists []|].
  destruct (SampleEnv.isSpace c).
  - exists (c :: spaces). simpl. now rewrite <- IH.
  - now exists [].
Qed.

Lemma trimLeft_head (l : list ascii) :
  SampleEnv.trimLeft l = []
  \/ exists c r, SampleEnv.trimLeft l = c :: r /\ SampleEnv.isSpace c = false.
Proof.
  induction l as [|c r IH]; simpl; [now left|].
  destruct (SampleEnv.isSpace c) eqn:Hc; [exact IH|].
  right. now exists c, r.
Qed.

Lemma trimRight_keeps_head (l : list ascii) :
  SampleEnv.trimLeft l = l ->
  SampleEnv.trimLeft (rev (SampleEnv.trimLeft (rev l)))
  = rev (SampleEnv.trimLeft (rev l)).
Proof.
  intros Hfix.
  destruct (trimLeft_suffix (rev l)) as [spaces Hs].
  assert (Hl : l = rev (SampleEnv.trimLeft (rev l)) ++ rev spaces).
  { rewrite <- rev_app_distr, <- Hs. now rewrite rev_involutive. }
  destruct (rev (SampleEnv.trimLeft (rev l))) as [|c r] eqn:Hr; [reflexivity|].
  destruct (trimLeft_head l) as [Hnil|(c' & r' & Hc & Hsp)].
  - rewrite Hfix in Hnil. rewrite Hnil in Hl. discriminate.
  - rewrite Hfix in Hc. rewrite Hc in Hl. simpl in Hl. injection Hl as -> _.
    simpl. now rewrite Hsp.
Qed.

Lemma SampleEnv_TrimSpace_idem (s : string) :
  SampleEnv.TrimSpace (SampleEnv.TrimSpace s) = SampleEnv.TrimSpace s.
Proof.
  unfold SampleEnv.TrimSpace. rewrite list_ascii_of_string_of_list_ascii.
  set (l := SampleEnv.trimLeft (list_ascii_of_string s)).
  assert (Hfix : SampleEnv.trimLeft l = l) by apply trimLeft_idem.
  rewrite (trimRight_keeps_head Hfix), rev_involutive, trimLeft_idem.
  reflexivity.
Qed.

(** ** More about the injection policy and the engine *)

Lemma firstSkip_None_iff (p : corev1.Pod) :
  firstSkip p = None <-> forall r, ~ holds r p.
Proof.
  split.
  - intros Hn r Hr. destruct (holds_firstSkip p r Hr) as [r0 H0]. congruence.
  - intros H. destruct (firstSkip p) as [r0|] eqn:Hr; [|reflexivity].
    destruct (firstSkip_sound p Hr) as [Hh _]. now elim (H r0).
Qed.

(** X16: [injectDNSConfig] leaves a pod as it was exactly when one of the
    three skip conditions holds; otherwise the pod changes. *)
Theorem injectDNSConfig_unchanged_iff (p : corev1.Pod) (d : DNSConfig) :
  fst (injectDNSConfig (Some p) d) = Some p <-> exists r, holds r p.
Proof.
  rewrite injectDNSConfig_cases. split.
  - destruct (firstSkip p) as [r0|] eqn:Hr; cbn [fst].
    + intros _. exists r0. now apply firstSkip_sound.
    + intros [= H]. exfalso.
      assert (Hc : corev1.DNSConfig (corev1.Spec p) = None).
      { unfold firstSkip in Hr.
        destruct (corev1.DNSConfig (corev1.Spec p)); [discriminate | reflexivity]. }
      rewrite <- H in Hc. discriminate Hc.
  - intros [r Hr]. destruct (holds_firstSkip p r Hr) as [r0 ->]. reflexivity.
Qed.

Section EngineMore.

Variable json_Unmarshal : string -> result corev1.Pod.
Variable json_Marshal : list PatchOperation -> result string.
Variable config : Config.

Local Abbreviation process000 :=
  (Part000.processAdmissionRequest json_Unmarshal json_Marshal config).
Local Abbreviation process001 :=
  (Part001.processAdmissionRequest json_Unmarshal json_Marshal config).
Local Abbreviation object req :=
  (slice_contents (admissionv1.Raw (admissionv1.Object req))).

(** X17: a Create of any pod for which no skip condition holds (a host
    network pod with ClusterFirstWithHostNet included) is allowed by the
    part_000 engine, with the JSON patch type and, as patch, the
    serialization of two operations: the policy replaced by None, and a DNS
    config added that holds the two configured nameservers, the three
    search domains derived from the pod's own namespace and the cluster
    domain, and the configured options; when that patch does not serialize
    the request is denied with code 400. *)
Theorem create_injects_patch
        (req : admissionv1.AdmissionRequest) (pod : corev1.Pod) :
  isPodRequest req = true ->
  admissionv1.Operation_ req = admissionv1.Create ->
  json_Unmarshal (object req) = Ok pod ->
  (forall r, ~ holds r pod) ->
  let ops :=
    injectionOps
      [NodeLocalDNSAddress config; ClusterDNSAddress config]
      [ (corev1.Namespace_of pod ++ ".svc." ++ ClusterDomain config)%string;
        ("svc." ++ ClusterDomain config)%string;
        ClusterDomain config ]
      (DNSOptions config) in
  (forall patch,
      json_Marshal ops = Ok patch ->
      AllowedWithPatch (process000 req) (admissionv1.UID req) patch)
  /\ (forall err,
         json_Marshal ops = Err err ->
         DeniedWith (process000 req) (admissionv1.UID req)
                    ("Failed to generate patch: failed to marshal JSON patch: " ++ err)%string).
Proof.
  intros Hpod Hop Hu Hno ops. apply firstSkip_None_iff in Hno.
  rewrite (process000_create json_Unmarshal json_Marshal config req Hpod Hu Hop).
  assert (Hops : patchOperations pod (injected pod (derivedDNSConfig config pod)) = ops).
  { rewrite patchOperations_eq, injected_cases, Hno. unfold configOperations.
    cbn [corev1.with_DNSConfig corev1.Spec corev1.DNSConfig].
    rewrite buildPodDNSConfig_eq, podOptions_eq. reflexivity. }
  pose proof (respondWithPatch_fields
                json_Marshal req pod (injected pod (derivedDNSConfig config pod)))
    as [Hok Herr].
  rewrite Hops in Hok, Herr. split; [exact Hok | exact Herr].
Qed.

Lemma configOperations_injected (pod pod' : corev1.Pod) (d : DNSConfig) :
  corev1.Spec pod = corev1.Spec pod' ->
  configOperations (injected pod d) = configOperations (injected pod' d).
Proof.
  intros H. rewrite !injected_cases. unfold firstSkip, configOperations. rewrite H.
  destruct (negb (isNil (corev1.DNSConfig (corev1.Spec pod')))); [now rewrite H|].
  destruct (corev1.DNSPolicy_ (corev1.Spec pod') =? corev1.DNSNone)%string;
    [now rewrite H|].
  destruct (corev1.HostNetwork (corev1.Spec pod')
            && negb (corev1.DNSPolicy_ (corev1.Spec pod')
                     =? corev1.DNSClusterFirstWithHostNet)%string);
    [now rewrite H | reflexivity].
Qed.

Lemma parsePodFromRequest_same (req req' : admissionv1.AdmissionRequest) :
  admissionv1.Raw (admissionv1.Object req) = admissionv1.Raw (admissionv1.Object req') ->
  match Part001.parsePodFromRequest json_Unmarshal req,
        Part001.parsePodFromRequest json_Unmarshal req' with
  | Ok pod, Ok pod' => corev1.Spec pod = corev1.Spec pod'
  | Err msg, Err msg' => msg = msg'
  | _, _ => False
  end.
Proof.
  intros H. unfold Part001.parsePodFromRequest. rewrite H.
  destruct (admissionv1.Raw (admissionv1.Object req')) as [raw|]; [|reflexivity].
  destruct (json_Unmarshal raw) as [pod|msg]; [|reflexivity].
  destruct (_ && _); destruct (_ && _); reflexivity.
Qed.

(** X18: the part_001 engine answers two in-scope requests with the same
    UID and the same raw object alike: whether the operation is Create or
    Update, and what the prior object, the request's name and the request's
    namespace are, makes no difference. *)
Theorem process001_reads_object_only (req req' : admissionv1.AdmissionRequest) :
  inScope req -> inScope req' -> sameObject req req' ->
  process001 req = process001 req'.
Proof.
  intros [Hpod Hop] [Hpod' Hop'] [Hid Hraw].
  pose proof (parsePodFromRequest_same req req' Hraw) as Hp.
  destruct (Part001.parsePodFromRequest json_Unmarshal req) as [pod|msg] eqn:H1;
    destruct (Part001.parsePodFromRequest json_Unmarshal req') as [pod'|msg'] eqn:H2;
    try contradiction.
  - rewrite (process001_parsed json_Unmarshal json_Marshal config req Hpod Hop H1).
    rewrite (process001_parsed json_Unmarshal json_Marshal config req' Hpod' Hop' H2).
    rewrite !respondWithPatch_cases, !patchOperations_eq.
    rewrite (configOperations_injected pod pod' _ Hp).
    unfold baseResponse. now rewrite Hid.
  - subst msg'.
    rewrite (process001_unparsable json_Unmarshal json_Marshal config req Hpod Hop H1).
    rewrite (process001_unparsable json_Unmarshal json_Marshal config req' Hpod' Hop' H2).
    now rewrite Hid.
Qed.

(** X19: the part_000 engine never reads the request's own name and
    namespace: a request renamed or moved to another namespace gets the same
    answer, and the namespace in the first search domain of a Create is the
    one the pod object carries, also when that is empty. *)
Theorem process000_ignores_request_namespace
        (req : admissionv1.AdmissionRequest) (pod : corev1.Pod) (name ns : string) :
  isPodRequest req = true ->
  admissionv1.Operation_ req = admissionv1.Create ->
  json_Unmarshal (object req) = Ok pod ->
  process000 (renamed req name ns) = process000 req
  /\ process000 (renamed req name ns)
     = respondWithPatch json_Marshal req (baseResponse req) pod
                        (injected pod (derivedDNSConfig config pod))
  /\ hd_error (Searches (derivedDNSConfig config pod))
     = Some (corev1.Namespace_of pod ++ ".svc." ++ ClusterDomain config)%string.
Proof.
  intros Hpod Hop Hu.
  assert (Hsame : process000 (renamed req name ns) = process000 req) by reflexivity.
  split; [exact Hsame|]. split; [|reflexivity].
  rewrite Hsame. now apply process000_create.
Qed.

(** X20: an in-scope request that either engine allows always carries a
    patch: the response has allowed true, the JSON patch type and, as
    patch, the serialization of the policy replace followed by at most the
    re-add of one DNS config; a bare allow is never the answer to a Pod
    Create or Update. *)
Theorem in_scope_allowed_is_patched (req : admissionv1.AdmissionRequest) :
  inScope req ->
  (admissionv1.Allowed (process000 req) = true ->
   Patched_by json_Marshal req (process000 req)
   /\ admissionv1.Patch (process000 req) <> None)
  /\ (admissionv1.Allowed (process001 req) = true ->
      Patched_by json_Marshal req (process001 req)
      /\ admissionv1.Patch (process001 req) <> None).
Proof.
  intros [Hpod Hop].
  assert (Htail : forall pod podCopy,
             admissionv1.Allowed
               (respondWithPatch json_Marshal req (baseResponse req) pod podCopy) = true ->
             Patched_by json_Marshal req
                        (respondWithPatch json_Marshal req (baseResponse req) pod podCopy)
             /\ admissionv1.Patch
                  (respondWithPatch json_Marshal req (baseResponse req) pod podCopy)
                <> None).
  { intros pod podCopy Hallowed.
    destruct (respondWithPatch_fields json_Marshal req pod podCopy) as [Hok Herr].
    rewrite patchOperations_eq in Hok, Herr.
    destruct (json_Marshal (replacePolicy corev1.DNSNone :: configOperations podCopy))
      as [patch|err] eqn:Hm.
    - specialize (Hok patch eq_refl). split.
      + now exists podCopy, patch.
      + destruct Hok as (_ & _ & _ & Hp & _). rewrite Hp. discriminate.
    - destruct (Herr err eq_refl) as (_ & Hdenied & _). congruence. }
  split.
  - destruct (json_Unmarshal (object req)) as [pod|err] eqn:Hu.
    2:{ rewrite (process000_unparsable json_Unmarshal json_Marshal config req Hpod Hu).
        discriminate. }
    destruct Hop as [Hc|Hup].
    + rewrite (process000_create json_Unmarshal json_Marshal config req Hpod Hu Hc).
      apply Htail.
    + destruct (json_Unmarshal
                  (slice_contents (admissionv1.Raw (admissionv1.OldObject req))))
        as [oldPod|err] eqn:Hold.
      * rewrite (process000_update json_Unmarshal json_Marshal config req Hpod Hu Hup Hold).
        apply Htail.
      * rewrite (process000_update_unparsable
                   json_Unmarshal json_Marshal config req Hpod Hu Hup Hold).
        discriminate.
  - destruct (Part001.parsePodFromRequest json_Unmarshal req) as [pod|msg] eqn:Hp.
    + rewrite (process001_parsed json_Unmarshal json_Marshal config req Hpod Hop Hp).
      apply Htail.
    + rewrite (process001_unparsable json_Unmarshal json_Marshal config req Hpod Hop Hp).
      discriminate.
Qed.

End EngineMore.

(** ** More about the HTTP front *)

Section ServerMore.

Variable json_Unmarshal : string -> result admissionv1.AdmissionReview.
Variable json_Marshal : admissionv1.AdmissionReview -> result string.
Variable processAdmissionRequest :
  admissionv1.AdmissionRequest -> admissionv1.AdmissionResponse.

Local Abbreviation serve :=
  (Server.serve json_Unmarshal json_Marshal processAdmissionRequest).

(** What the handler does with a request that passes its checks. *)
Lemma serve_valid (r : Server.Request) (request : admissionv1.AdmissionRequest) :
  TransportValid json_Unmarshal r request ->
  serve r
  = match json_Marshal (reviewOf (processAdmissionRequest request)) with
    | Ok responseBytes => answered Server.StatusOK (Server.RawJSON responseBytes) request
    | Err _ =>
      answered Server.StatusInternalServerError
               (Server.ErrorJSON Server.StatusInternalServerError
                                 "Failed to marshal response")
               request
    end.
Proof.
  intros (Hm & Hc & body & review & Hb & Hu & Hr & Hi).
  unfold Server.serve, Server.HandleInject, Server.parseAdmissionReview.
  rewrite Hm, Hc, Hb, Hu, Hr.
  apply String.eqb_neq in Hi. rewrite Hi.
  change (Server.MethodPost =? Server.MethodPost)%string with true.
  change (Server.ContentTypeJSON =? Server.ContentTypeJSON)%string with true.
  cbn [negb]. rewrite Hr.
  unfold Server.bind, Server.decide, reviewOf.
  destruct (json_Marshal _); reflexivity.
Qed.

(** The three ways a call of the handler can go. *)
Lemma serve_classified (r : Server.Request) :
  (Server.Method r <> Server.MethodPost
   /\ serve r = rejected Server.StatusMethodNotAllowed "Only POST method is allowed")
  \/ (Server.Method r = Server.MethodPost
      /\ exists message, serve r = rejected Server.StatusBadRequest message)
  \/ (exists request, TransportValid json_Unmarshal r request).
Proof.
  unfold Server.serve, Server.HandleInject.
  destruct (String.eqb_spec (Server.Method r) Server.MethodPost) as [Hm|Hm];
    cbn [negb]; [|now left].
  right.
  destruct (String.eqb_spec (Server.Header_Get (Server.Header r) "Content-Type")
                            Server.ContentTypeJSON) as [Hc|Hc]; cbn [negb].
  2:{ left. split; [exact Hm|]. now eexists. }
  destruct (Server.Body r) as [body|e] eqn:Hb.
  2:{ left. split; [exact Hm|]. now eexists. }
  unfold Server.parseAdmissionReview.
  destruct (json_Unmarshal body) as [review|e] eqn:Hu.
  2:{ left. split; [exact Hm|]. now eexists. }
  destruct (admissionv1.Request review) as [request|] eqn:Hr.
  2:{ left. split; [exact Hm|]. now eexists. }
  destruct (String.eqb_spec (admissionv1.UID request) "") as [Hi|Hi].
  { left. split; [exact Hm|]. now eexists. }
  right. exists request. repeat split; try assumption.
  now exists body, review.
Qed.

Lemma TransportFailure_not_valid (r : Server.Request)
      (request : admissionv1.AdmissionRequest) :
  TransportFailure json_Unmarshal r ->
  TransportValid json_Unmarshal r request -> False.
Proof.
  intros Hfail (Hm & Hc & body & review & Hb & Hu & Hr & Hi).
  destruct Hfail as [H|H|b e Hb' Hu'|b rv Hb' Hu' Hr'|b rv rq Hb' Hu' Hr' Hi'].
  - now apply H.
  - now apply H.
  - congruence.
  - congruence.
  - assert (rq = request) by congruence. subst rq. now apply Hi.
Qed.

(** X21: a request that passes the checks of [HandleInject] is handed to
    the decision engine exactly once, and the answer is HTTP 200 with the
    marshalled review around the engine's response, whether that response
    allows or denies; only a failure to marshal turns it into a 500. *)
Theorem valid_request_answered
        (r : Server.Request) (request : admissionv1.AdmissionRequest) :
  TransportValid json_Unmarshal r request ->
  Server.decided (serve r) = [request]
  /\ match json_Marshal (reviewOf (processAdmissionRequest request)) with
     | Ok responseBytes =>
       serve r = answered 200 (Server.RawJSON responseBytes) request
     | Err _ =>
       serve r = answered 500 (Server.ErrorJSON 500 "Failed to marshal response") request
     end.
Proof.
  intros H. rewrite (serve_valid H).
  destruct (json_Marshal _); now split.
Qed.

(** X22: a wrong method is answered 405 whatever else is wrong with the
    request; every other transport failure is answered 400. *)
Theorem transport_failure_status (r : Server.Request) :
  TransportFailure json_Unmarshal r ->
  exists message,
    serve r
    = rejected (if (Server.Method r =? Server.MethodPost)%string then 400 else 405)%Z
               message.
Proof.
  intros Hfail.
  destruct (serve_classified r) as [[Hm Hs]|[[Hm [message Hs]]|[request Hv]]].
  - apply String.eqb_neq in Hm. rewrite Hm.
    exists "Only POST method is allowed". exact Hs.
  - rewrite Hm. change (Server.MethodPost =? Server.MethodPost)%string with true.
    exists message. exact Hs.
  - exfalso. now apply (TransportFailure_not_valid Hfail Hv).
Qed.

(** X23: whatever the request, the handler sends one status, one of 200,
    400, 405 and 500, and one body, under the JSON content type; it calls
    the engine at most once, only with a request whose UID is not empty, and
    never dereferences a nil request. *)
Theorem every_request_gets_one_answer (r : Server.Request) :
  exists code payload,
    Server.writer (serve r)
    = {| Server.wHeader := [("Content-Type", Server.ContentTypeJSON)];
         Server.wStatus := Some code;
         Server.wBody := [payload] |}
    /\ In code [200; 400; 405; 500]%Z
    /\ (Server.decided (serve r) = []
        \/ exists request,
            Server.decided (serve r) = [request] /\ admissionv1.UID request <> "")
    /\ Server.panicked (serve r) = false.
Proof.
  destruct (serve_classified r) as [[Hm Hs]|[[Hm [message Hs]]|[request Hv]]].
  - rewrite Hs. eexists _, _. split; [reflexivity|]. simpl. intuition.
  - rewrite Hs. eexists _, _. split; [reflexivity|]. simpl. intuition.
  - rewrite (serve_valid Hv).
    assert (Hi : admissionv1.UID request <> "").
    { now destruct Hv as (_ & _ & body & review & _ & _ & _ & Hi). }
    destruct (json_Marshal _); eexists _, _; (split; [reflexivity|]);
      simpl; (split; [intuition|]); (split; [|reflexivity]);
      right; now exists request.
Qed.

End ServerMore.

(** X24: a POST with a valid envelope around a Pod Create or Update whose
    object the part_001 engine cannot parse gets, from the engine, a denial
    (allowed false, code 400, a message that names the parse failure, no
    patch), and from the handler HTTP 200 with the marshalled review around
    that denial as body. *)
Theorem unparsable_pod_is_denied_in_band
        (decodeReview : string -> result admissionv1.AdmissionReview)
        (encodeReview : admissionv1.AdmissionReview -> result string)
        (decodePod : string -> result corev1.Pod)
        (encodePatch : list PatchOperation -> result string)
        (config : Config)
        (r : Server.Request) (request : admissionv1.AdmissionRequest)
        (msg : string) :
  TransportValid decodeReview r request ->
  inScope request ->
  Part001.parsePodFromRequest decodePod request = Err msg ->
  let denial := Part001.processAdmissionRequest decodePod encodePatch config request in
  DeniedWith denial (admissionv1.UID request) ("Failed to parse pod: " ++ msg)%string
  /\ forall responseBytes,
      encodeReview {| admissionv1.Request := None;
                      admissionv1.Response := Some denial |} = Ok responseBytes ->
      Server.serve decodeReview encodeReview
                   (Part001.processAdmissionRequest decodePod encodePatch config) r
      = {| Server.writer :=
             {| Server.wHeader := [("Content-Type", "application/json")];
                Server.wStatus := Some 200%Z;
                Server.wBody := [Server.RawJSON responseBytes] |};
           Server.decided := [request];
           Server.panicked := false |}.
Proof.
  intros Hv [Hpod Hop] Hp denial. split.
  - unfold denial.
    rewrite (process001_unparsable decodePod encodePatch config request Hpod Hop Hp).
    apply createErrorResponse_denied.
  - intros responseBytes Hm.
    rewrite (serve_valid encodeReview
               (Part001.processAdmissionRequest decodePod encodePatch config) Hv).
    unfold reviewOf. fold denial. now rewrite Hm.
Qed.

(** ** The further theorems at the sample inputs *)

Lemma parseDNSOptions_result_witness :
  parseDNSOptions SampleEnv.TrimSpace "ndots:2, timeout:1"
  = Ok [ {| Name := "ndots"; Value := "2" |}; {| Name := "timeout"; Value := "1" |} ]
  /\ length [ {| Name := "ndots"; Value := "2" |}; {| Name := "timeout"; Value := "1" |} ]
     = S (strings.Count "ndots:2, timeout:1" ",").
Proof.
  split; [reflexivity|].
  exact (proj1 (proj2 (@parseDNSOptions_result
                         SampleEnv.TrimSpace "ndots:2, timeout:1" _ eq_refl))).
Defined.

Lemma parseDNSOptions_one_colon_witness :
  In "timeout" (strings.Split "ndots:2,timeout" ",")
  /\ exists msg, parseDNSOptions SampleEnv.TrimSpace "ndots:2,timeout" = Err msg.
Proof.
  assert (Hin : In "timeout" (strings.Split "ndots:2,timeout" ","))
    by (right; left; reflexivity).
  split; [exact Hin|].
  apply (@parseDNSOptions_one_colon SampleEnv.TrimSpace "ndots:2,timeout" "timeout" Hin).
  discriminate.
Defined.

Lemma LoadConfig_valid_witness :
  exists config,
    LoadConfig SampleEnv.TrimSpace SampleEnv.full "10.96.0.10" = Ok config
    /\ ValidConfig SampleEnv.TrimSpace config
    /\ ClusterDNSAddress config = "10.96.0.10".
Proof.
  eexists. split; [reflexivity|].
  destruct (@LoadConfig_valid SampleEnv.TrimSpace SampleEnv.full "10.96.0.10" _ eq_refl)
    as (Hv & Hc & _).
  split; [exact Hv | exact Hc].
Defined.

Lemma LoadConfig_environment_witness :
  exists config,
    LoadConfig SampleEnv.TrimSpace SampleEnv.full "10.96.0.10" = Ok config
    /\ SearchDomains config = ["ns.svc.cluster.local"; "svc.cluster.local"]
    /\ DNSOptions config
       = [ {| Name := "ndots"; Value := "2" |}; {| Name := "timeout"; Value := "1" |} ].
Proof.
  eexists. split; [reflexivity|].
  destruct (@LoadConfig_environment SampleEnv.TrimSpace SampleEnv.full
                                    "10.96.0.10" _ eq_refl) as (Hs & Ho).
  split; [exact Hs | reflexivity].
Defined.

Lemma LoadConfig_requires_address_witness :
  exists msg, LoadConfig SampleEnv.TrimSpace SampleEnv.unset "10.96.0.10" = Err msg.
Proof.
  eexists.
  exact (@LoadConfig_requires_address SampleEnv.TrimSpace SampleEnv.unset
                                      "10.96.0.10" eq_refl).
Defined.

Lemma LoadConfig_defaults_witness :
  LoadConfig SampleEnv.TrimSpace SampleEnv.minimal "10.0.0.10"
  = Ok {| NodeLocalDNSAddress := "169.254.20.10";
          SearchDomains := SearchDomains DefaultConfig;
          DNSOptions := DNSOptions DefaultConfig;
          ClusterDNSAddress := "10.0.0.10";
          ClusterDomain := "" |}.
Proof.
  exact (@LoadConfig_defaults SampleEnv.TrimSpace SampleEnv.minimal "10.0.0.10"
                              eq_refl eq_refl eq_refl eq_refl eq_refl eq_refl).
Defined.

Lemma LoadConfig_two_nameservers_witness :
  exists config,
    LoadConfig SampleEnv.TrimSpace SampleEnv.minimal "10.0.0.10" = Ok config
    /\ Nameservers (Part001.createDNSConfig config) = ["169.254.20.10"; "10.0.0.10"].
Proof.
  eexists. split; [reflexivity|].
  exact (proj1 (@LoadConfig_two_nameservers SampleEnv.TrimSpace SampleEnv.minimal
                                            "10.0.0.10" _ eq_refl)).
Defined.

Lemma parsed_options_validate_witness :
  validateDNSOptions
    SampleEnv.TrimSpace
    [ {| Name := "ndots"; Value := "2" |}; {| Name := "timeout"; Value := "1" |} ]
  = None.
Proof.
  exact (@parsed_options_validate SampleEnv.TrimSpace "ndots:2, timeout:1" _
                                  SampleEnv_TrimSpace_idem eq_refl).
Defined.

Lemma LoadConfig_blank_search_domain_witness :
  SampleEnv.trailingComma EnvSearchDomains = "svc.cluster.local,"
  /\ exists msg,
      LoadConfig SampleEnv.TrimSpace SampleEnv.trailingComma "10.96.0.10" = Err msg.
Proof.
  split; [reflexivity|].
  apply (@LoadConfig_blank_search_domain
           SampleEnv.TrimSpace SampleEnv.trailingComma "10.96.0.10" ""
           SampleEnv_TrimSpace_idem).
  - discriminate.
  - right; left; reflexivity.
  - reflexivity.
Defined.

Lemma injectDNSConfig_injects_witness :
  firstSkip Sample.barePod = None
  /\ exists injectedPod,
      injectDNSConfig (Some Sample.barePod) (Part001.createDNSConfig Sample.config)
      = (Some injectedPod, None)
      /\ corev1.DNSPolicy_ (corev1.Spec injectedPod) = corev1.DNSNone
      /\ corev1.OtherSpec (corev1.Spec injectedPod)
         = corev1.OtherSpec (corev1.Spec Sample.barePod).
Proof.
  split; [reflexivity|]. eexists. split.
  - exact (@injectDNSConfig_injects Sample.barePod
                                    (Part001.createDNSConfig Sample.config) eq_refl).
  - split; reflexivity.
Defined.

Lemma no_skip_for_opted_in_host_network :
  forall r, ~ holds r SampleEnv.hostNetOptInPod.
Proof.
  intros [| |]; simpl.
  - intros H. now apply H.
  - discriminate.
  - intros [_ H]. now apply H.
Qed.

Lemma create_injects_patch_witness :
  AllowedWithPatch
    (Part000.processAdmissionRequest SampleEnv.decodePod Sample.encodePatch Sample.config
                                     SampleEnv.createHostNetOptIn)
    (admissionv1.UID SampleEnv.createHostNetOptIn)
    ("[{op:replace,path:/spec/dnsPolicy,value:None},"
     ++ "{op:add,path:/spec/dnsConfig,value:"
     ++ "{nameservers:[169.254.20.10,10.96.0.10],"
     ++ "searches:[ns.svc.cluster.local,svc.cluster.local,cluster.local],"
     ++ "options:[ndots=3,attempts=2,timeout=1]}}]")%string.
Proof.
  exact (proj1 (@create_injects_patch
                  SampleEnv.decodePod Sample.encodePatch Sample.config
                  SampleEnv.createHostNetOptIn SampleEnv.hostNetOptInPod
                  eq_refl eq_refl eq_refl no_skip_for_opted_in_host_network)
               _ eq_refl).
Defined.

Lemma process001_reads_object_only_witness :
  Part001.processAdmissionRequest Sample.decodePod Sample.encodePatch Sample.config
                                  Sample.createBare
  = Part001.processAdmissionRequest Sample.decodePod Sample.encodePatch Sample.config
                                    SampleEnv.updateBare.
Proof.
  apply (@process001_reads_object_only
           Sample.decodePod Sample.encodePatch Sample.config
           Sample.createBare SampleEnv.updateBare).
  - split; [reflexivity | left; reflexivity].
  - split; [reflexivity | right; reflexivity].
  - split; reflexivity.
Defined.

Lemma process000_ignores_request_namespace_witness :
  Part000.processAdmissionRequest Sample.decodePod Sample.encodePatch Sample.config
                                  (renamed Sample.createBare "api" "kube-system")
  = Part000.processAdmissionRequest Sample.decodePod Sample.encodePatch Sample.config
                                    Sample.createBare.
Proof.
  exact (proj1 (@process000_ignores_request_namespace
                  Sample.decodePod Sample.encodePatch Sample.config
                  Sample.createBare Sample.barePod "api" "kube-system"
                  eq_refl eq_refl eq_refl)).
Defined.

Lemma in_scope_allowed_is_patched_witness :
  inScope Sample.createBare
  /\ admissionv1.Patch
       (Part000.processAdmissionRequest
          Sample.decodePod Sample.encodePatch Sample.config Sample.createBare)
     <> None.
Proof.
  assert (H : inScope Sample.createBare) by (split; [reflexivity | left; reflexivity]).
  split; [exact H|].
  exact (proj2 (proj1 (@in_scope_allowed_is_patched
                         Sample.decodePod Sample.encodePatch Sample.config
                         Sample.createBare H) eq_refl)).
Defined.

Lemma postRequest_valid :
  TransportValid Sample.decodeReview SampleEnv.postRequest Sample.createBare.
Proof.
  split; [reflexivity|]. split; [reflexivity|].
  exists "<review of createBare>", {| admissionv1.Request := Some Sample.createBare;
                                      admissionv1.Response := None |}.
  repeat split. discriminate.
Qed.

Lemma valid_request_answered_witness :
  Server.decided
    (Server.serve Sample.decodeReview Sample.encodeReview
                  (Part001.processAdmissionRequest
                     Sample.decodePod Sample.encodePatch Sample.config)
                  SampleEnv.postRequest)
  = [Sample.createBare].
Proof.
  exact (proj1 (@valid_request_answered
                  Sample.decodeReview Sample.encodeReview
                  (Part001.processAdmissionRequest
                     Sample.decodePod Sample.encodePatch Sample.config)
                  SampleEnv.postRequest Sample.createBare postRequest_valid)).
Defined.

Lemma transport_failure_status_witness :
  exists message,
    Server.serve Sample.decodeReview Sample.encodeReview
                 (Part001.processAdmissionRequest
                    Sample.decodePod Sample.encodePatch Sample.config)
                 Sample.getRequest
    = rejected 405 message.
Proof.
  apply (@transport_failure_status
           Sample.decodeReview Sample.encodeReview
           (Part001.processAdmissionRequest
              Sample.decodePod Sample.encodePatch Sample.config)
           Sample.getRequest).
  apply WrongMethod. discriminate.
Defined.

Lemma postUnparsable_valid :
  TransportValid SampleEnv.decodeReview SampleEnv.postUnparsable Sample.createUnparsable.
Proof.
  split; [reflexivity|]. split; [reflexivity|].
  exists "<review of createUnparsable>",
         {| admissionv1.Request := Some Sample.createUnparsable;
            admissionv1.Response := None |}.
  repeat split. discriminate.
Qed.

Lemma unparsable_pod_is_denied_in_band_witness :
  DeniedWith
    (Part001.processAdmissionRequest Sample.decodePod Sample.encodePatch Sample.config
                                     Sample.createUnparsable)
    (admissionv1.UID Sample.createUnparsable)
    "Failed to parse pod: failed to unmarshal pod object: invalid character"
  /\ Server.wStatus
       (Server.writer
          (Server.serve SampleEnv.decodeReview Sample.encodeReview
                        (Part001.processAdmissionRequest
                           Sample.decodePod Sample.encodePatch Sample.config)
                        SampleEnv.postUnparsable))
     = Some 200%Z.
Proof.
  assert (Hin : inScope Sample.createUnparsable)
    by (split; [reflexivity | left; reflexivity]).
  destruct (@unparsable_pod_is_denied_in_band
              SampleEnv.decodeReview Sample.encodeReview
              Sample.decodePod Sample.encodePatch Sample.config
              SampleEnv.postUnparsable Sample.createUnparsable
              "failed to unmarshal pod object: invalid character"
              postUnparsable_valid Hin eq_refl)
    as (Hdenied & Hserve).
  split; [exact Hdenied|].
  now rewrite (Hserve "<review>" eq_refl).
Defined.
